(** * Production-Tracking: the entity graph of [models.py]

    A shallow embedding of the SQLAlchemy models of [src/models.py]:
    the table rows with their columns, the store the many-to-one
    relationships are loaded from, and the derived ("unnested")
    properties, each written as the Python conditional expression the
    source has, over an evaluator in which an attribute read on [None]
    raises [AttributeError]. *)

From Stdlib Require Import Ascii.
From stdpp Require Import gmap strings list fin_maps.

Open Scope Z_scope.

(** ** Enumerations ([class X(str, enum.Enum)]) *)

Inductive UserRole :=
  SUPER_ADMIN | ADMIN | PLANT_ADMIN | PLANNER | TEAM_LEADER | MEMBER.

Inductive DayNight := DAY | NIGHT.

Inductive ShiftType := SHIFT_A | SHIFT_B | SHIFT_C.

Inductive Hour :=
  | HOUR_01 | HOUR_02 | HOUR_03 | HOUR_04 | HOUR_05 | HOUR_06
  | HOUR_07 | HOUR_08 | HOUR_09 | HOUR_10 | HOUR_11 | HOUR_12.

Definition UserRole_value (r : UserRole) : string :=
  match r with
  | SUPER_ADMIN => "SUPER_ADMIN" | ADMIN => "ADMIN"
  | PLANT_ADMIN => "PLANT_ADMIN" | PLANNER => "PLANNER"
  | TEAM_LEADER => "TEAM_LEADER" | MEMBER => "MEMBER"
  end.

Definition DayNight_value (d : DayNight) : string :=
  match d with DAY => "DAY" | NIGHT => "NIGHT" end.

Definition ShiftType_value (s : ShiftType) : string :=
  match s with
  | SHIFT_A => "SHIFT-A" | SHIFT_B => "SHIFT-B" | SHIFT_C => "SHIFT-C"
  end.

Definition Hour_value (h : Hour) : string :=
  match h with
  | HOUR_01 => "HOUR-01" | HOUR_02 => "HOUR-02" | HOUR_03 => "HOUR-03"
  | HOUR_04 => "HOUR-04" | HOUR_05 => "HOUR-05" | HOUR_06 => "HOUR-06"
  | HOUR_07 => "HOUR-07" | HOUR_08 => "HOUR-08" | HOUR_09 => "HOUR-09"
  | HOUR_10 => "HOUR-10" | HOUR_11 => "HOUR-11" | HOUR_12 => "HOUR-12"
  end.

(** ** The timestamp and soft-delete mixin

    [DateTime] values are instants on an integer clock.  [created_at],
    [updated_at] and [is_deleted] are [nullable=False]; [deleted_at] is
    [nullable=True] and has no default. *)

Record TimestampMixin := mkTimestampMixin {
  created_at : Z;
  updated_at : Z;
  deleted_at : option Z;
  is_deleted : bool
}.

(** ** Table rows

    One record per mapped class, one field per [Column].  A column
    declared without [nullable=False] that is not a primary key admits
    NULL, hence the [option]s.  Integer keys are [Z], the
    organisation-assigned user ids are strings. *)

Record Plant := mkPlant {
  Plant_id : Z;
  Plant_name : option string;
  Plant_mixin : TimestampMixin
}.

Record Zone := mkZone {
  Zone_id : Z;
  Zone_name : option string;
  Zone_plant_id : option Z;
  Zone_mixin : TimestampMixin
}.

Record Loop := mkLoop {
  Loop_id : Z;
  Loop_name : option string;
  Loop_zone_id : option Z;
  Loop_mixin : TimestampMixin
}.

Record Line := mkLine {
  Line_id : Z;
  Line_name : option string;
  Line_loop_id : option Z;
  Line_mixin : TimestampMixin
}.

Record Cell := mkCell {
  Cell_id : Z;
  Cell_name : option string;
  Cell_line_id : option Z;
  Cell_mixin : TimestampMixin
}.

Record User := mkUser {
  User_sap_id : string;
  User_name : option string;
  User_role : option UserRole;
  User_password : option string;
  User_mixin : TimestampMixin
}.

Record Admin := mkAdmin {
  Admin_user_id : string;
  Admin_mixin : TimestampMixin
}.

Record PlantAdmin := mkPlantAdmin {
  PlantAdmin_user_id : string;
  PlantAdmin_plant_id : option Z;
  PlantAdmin_mixin : TimestampMixin
}.

Record Planner := mkPlanner {
  Planner_user_id : string;
  Planner_plant_id : option Z;
  Planner_mixin : TimestampMixin
}.

Record TeamLeader := mkTeamLeader {
  TeamLeader_user_id : string;
  TeamLeader_line_id : option Z;
  TeamLeader_mixin : TimestampMixin
}.

Record Member := mkMember {
  Member_user_id : string;
  Member_cell_id : option Z;
  Member_mixin : TimestampMixin
}.

Record Shift := mkShift {
  Shift_id : Z;
  Shift_date : option Z;
  Shift_day_night : option DayNight;
  Shift_shift : option ShiftType;
  Shift_plant_id : option Z;
  Shift_planner_id : option string;
  Shift_mixin : TimestampMixin
}.

Record Production := mkProduction {
  Production_id : Z;
  Production_plan : option Z;
  Production_achievement : option Z;
  Production_scraps : option Z;
  Production_defects : option Z;
  Production_flash : option Z;
  Production_hour : option Hour;
  Production_line_id : option Z;
  Production_shift_id : option Z;
  Production_planner_id : option string;
  Production_team_leader_id : option string;
  Production_mixin : TimestampMixin
}.

Record LossReason := mkLossReason {
  LossReason_id : Z;
  LossReason_title : option string;
  LossReason_department : option string;
  LossReason_mixin : TimestampMixin
}.

Record Loss := mkLoss {
  Loss_id : Z;
  Loss_amount : option Z;
  Loss_loss_reason_id : option Z;
  Loss_production_id : option Z;
  Loss_mixin : TimestampMixin
}.

Record AttendanceType := mkAttendanceType {
  AttendanceType_id : Z;
  AttendanceType_title : option string;
  AttendanceType_color : option string;
  AttendanceType_mixin : TimestampMixin
}.

Record Attendance := mkAttendance {
  Attendance_id : Z;
  Attendance_member_id : option string;
  Attendance_attendance_type_id : option Z;
  Attendance_shift_id : option Z;
  Attendance_working_cell_id : option Z;
  Attendance_team_leader_id : option string;
  Attendance_mixin : TimestampMixin
}.

(** ** The store

    One finite map per [__tablename__], keyed by the primary key.  Rows
    are shared: every entity that refers to a parent refers to it by key,
    so a write to a row is seen by all its descendants. *)

Record DB := mkDB {
  tbl_plant : gmap Z Plant;
  tbl_zone : gmap Z Zone;
  tbl_loop : gmap Z Loop;
  tbl_line : gmap Z Line;
  tbl_cell : gmap Z Cell;
  tbl_user : gmap string User;
  tbl_admin : gmap string Admin;
  tbl_plant_admin : gmap string PlantAdmin;
  tbl_planner : gmap string Planner;
  tbl_team_leader : gmap string TeamLeader;
  tbl_member : gmap string Member;
  tbl_shift : gmap Z Shift;
  tbl_production : gmap Z Production;
  tbl_loss_reason : gmap Z LossReason;
  tbl_loss : gmap Z Loss;
  tbl_attendance_type : gmap Z AttendanceType;
  tbl_attendance : gmap Z Attendance
}.

(** ** Python expressions

    A reference is [None] or an object ([option]).  Reading an attribute
    of [None] raises; [and] short-circuits on the first falsy operand;
    [x if c else y] evaluates [c] first and then only the chosen branch. *)

Inductive exn := AttributeError.

Inductive outcome (A : Type) :=
  | Returns (v : A)
  | Raises (e : exn).

Arguments Returns {A} v.
Arguments Raises {A} e.

Class Truthy (A : Type) := truthy : A → bool.

#[global] Instance bool_truthy : Truthy bool := λ b, b.

(** A mapped object defines neither [__bool__] nor [__len__]: it is
    truthy, and [None] is falsy. *)
#[global] Instance ref_truthy {A} : Truthy (option A) :=
  λ o, match o with Some _ => true | None => false end.

Definition this {A} (self : A) : outcome (option A) := Returns (Some self).

Definition getattr {A B} (rel : A → option B) (o : outcome (option A))
  : outcome (option B) :=
  match o with
  | Returns (Some a) => Returns (rel a)
  | Returns None => Raises AttributeError
  | Raises e => Raises e
  end.

Definition py_and {A B} `{Truthy A, Truthy B} (a : outcome A) (b : outcome B)
  : outcome bool :=
  match a with
  | Returns v =>
      if truthy v then
        match b with Returns w => Returns (truthy w) | Raises e => Raises e end
      else Returns false
  | Raises e => Raises e
  end.

Definition if_else {C A} `{Truthy C} (c : outcome C) (x y : outcome A)
  : outcome A :=
  match c with
  | Returns v => if truthy v then x else y
  | Raises e => Raises e
  end.

Declare Scope py_scope.
Delimit Scope py_scope with py.
Notation "o '.:' rel" := (getattr rel o)
  (at level 15, left associativity) : py_scope.
Notation "a 'AND' b" := (py_and a b)
  (at level 60, right associativity) : py_scope.
Notation "x 'IF' c 'ELSE' y" := (if_else c x y)
  (at level 70, c at level 69, no associativity) : py_scope.
Notation "'NONE'" := (Returns None) : py_scope.

Open Scope py_scope.

(** ** Relationships and derived properties *)

Section Models.

Variable db : DB.

(** *** Many-to-one relationships

    [relationship("Parent")] on a class that holds the foreign key: the
    parent row under that key, [None] when the key is NULL or no row has
    it. *)

Definition Zone_plant (self : Zone) : option Plant :=
  Zone_plant_id self ≫= λ k, tbl_plant db !! k.

Definition Loop_zone (self : Loop) : option Zone :=
  Loop_zone_id self ≫= λ k, tbl_zone db !! k.

Definition Line_loop (self : Line) : option Loop :=
  Line_loop_id self ≫= λ k, tbl_loop db !! k.

Definition Cell_line (self : Cell) : option Line :=
  Cell_line_id self ≫= λ k, tbl_line db !! k.

Definition Admin_user (self : Admin) : option User :=
  tbl_user db !! Admin_user_id self.

Definition PlantAdmin_user (self : PlantAdmin) : option User :=
  tbl_user db !! PlantAdmin_user_id self.

Definition PlantAdmin_plant (self : PlantAdmin) : option Plant :=
  PlantAdmin_plant_id self ≫= λ k, tbl_plant db !! k.

Definition Planner_user (self : Planner) : option User :=
  tbl_user db !! Planner_user_id self.

Definition Planner_plant (self : Planner) : option Plant :=
  Planner_plant_id self ≫= λ k, tbl_plant db !! k.

Definition TeamLeader_user (self : TeamLeader) : option User :=
  tbl_user db !! TeamLeader_user_id self.

Definition TeamLeader_line (self : TeamLeader) : option Line :=
  TeamLeader_line_id self ≫= λ k, tbl_line db !! k.

Definition Member_user (self : Member) : option User :=
  tbl_user db !! Member_user_id self.

Definition Member_cell (self : Member) : option Cell :=
  Member_cell_id self ≫= λ k, tbl_cell db !! k.

Definition Shift_plant (self : Shift) : option Plant :=
  Shift_plant_id self ≫= λ k, tbl_plant db !! k.

Definition Shift_planner (self : Shift) : option Planner :=
  Shift_planner_id self ≫= λ k, tbl_planner db !! k.

Definition Production_shift (self : Production) : option Shift :=
  Production_shift_id self ≫= λ k, tbl_shift db !! k.

Definition Production_planner (self : Production) : option Planner :=
  Production_planner_id self ≫= λ k, tbl_planner db !! k.

Definition Production_team_leader (self : Production) : option TeamLeader :=
  Production_team_leader_id self ≫= λ k, tbl_team_leader db !! k.

Definition Production_line (self : Production) : option Line :=
  Production_line_id self ≫= λ k, tbl_line db !! k.

Definition Loss_loss_reason (self : Loss) : option LossReason :=
  Loss_loss_reason_id self ≫= λ k, tbl_loss_reason db !! k.

Definition Loss_production (self : Loss) : option Production :=
  Loss_production_id self ≫= λ k, tbl_production db !! k.

Definition Attendance_attendance_type (self : Attendance)
  : option AttendanceType :=
  Attendance_attendance_type_id self ≫= λ k, tbl_attendance_type db !! k.

Definition Attendance_member (self : Attendance) : option Member :=
  Attendance_member_id self ≫= λ k, tbl_member db !! k.

Definition Attendance_team_leader (self : Attendance) : option TeamLeader :=
  Attendance_team_leader_id self ≫= λ k, tbl_team_leader db !! k.

Definition Attendance_shift (self : Attendance) : option Shift :=
  Attendance_shift_id self ≫= λ k, tbl_shift db !! k.

Definition Attendance_working_cell (self : Attendance) : option Cell :=
  Attendance_working_cell_id self ≫= λ k, tbl_cell db !! k.

(** *** [class Loop] *)

Definition Loop_plant (self : Loop) : outcome (option Plant) :=
  this self .: Loop_zone .: Zone_plant
  IF this self .: Loop_zone ELSE NONE.

(** *** [class Line] *)

Definition Line_zone (self : Line) : outcome (option Zone) :=
  this self .: Line_loop .: Loop_zone
  IF this self .: Line_loop ELSE NONE.

Definition Line_plant (self : Line) : outcome (option Plant) :=
  this self .: Line_loop .: Loop_zone .: Zone_plant
  IF this self .: Line_loop AND this self .: Line_loop .: Loop_zone
  ELSE NONE.

(** *** [class Cell] *)

Definition Cell_loop (self : Cell) : outcome (option Loop) :=
  this self .: Cell_line .: Line_loop
  IF this self .: Cell_line ELSE NONE.

Definition Cell_zone (self : Cell) : outcome (option Zone) :=
  this self .: Cell_line .: Line_loop .: Loop_zone
  IF this self .: Cell_line AND this self .: Cell_line .: Line_loop
  ELSE NONE.

Definition Cell_plant (self : Cell) : outcome (option Plant) :=
  this self .: Cell_line .: Line_loop .: Loop_zone .: Zone_plant
  IF this self .: Cell_line
     AND this self .: Cell_line .: Line_loop
     AND this self .: Cell_line .: Line_loop .: Loop_zone
  ELSE NONE.

(** *** [class TeamLeader] *)

Definition TeamLeader_loop (self : TeamLeader) : outcome (option Loop) :=
  this self .: TeamLeader_line .: Line_loop
  IF this self .: TeamLeader_line ELSE NONE.

Definition TeamLeader_zone (self : TeamLeader) : outcome (option Zone) :=
  this self .: TeamLeader_line .: Line_loop .: Loop_zone
  IF this self .: TeamLeader_line
     AND this self .: TeamLeader_line .: Line_loop
  ELSE NONE.

Definition TeamLeader_plant (self : TeamLeader) : outcome (option Plant) :=
  this self .: TeamLeader_line .: Line_loop .: Loop_zone .: Zone_plant
  IF this self .: TeamLeader_line
     AND this self .: TeamLeader_line .: Line_loop
     AND this self .: TeamLeader_line .: Line_loop .: Loop_zone
  ELSE NONE.

(** *** [class Member] *)

Definition Member_line (self : Member) : outcome (option Line) :=
  this self .: Member_cell .: Cell_line
  IF this self .: Member_cell ELSE NONE.

Definition Member_loop (self : Member) : outcome (option Loop) :=
  this self .: Member_cell .: Cell_line .: Line_loop
  IF this self .: Member_cell
     AND this self .: Member_cell .: Cell_line
  ELSE NONE.

Definition Member_zone (self : Member) : outcome (option Zone) :=
  this self .: Member_cell .: Cell_line .: Line_loop .: Loop_zone
  IF this self .: Member_cell
     AND this self .: Member_cell .: Cell_line
     AND this self .: Member_cell .: Cell_line .: Line_loop
  ELSE NONE.

Definition Member_plant (self : Member) : outcome (option Plant) :=
  this self .: Member_cell .: Cell_line .: Line_loop .: Loop_zone .: Zone_plant
  IF this self .: Member_cell
     AND this self .: Member_cell .: Cell_line
     AND this self .: Member_cell .: Cell_line .: Line_loop
     AND this self .: Member_cell .: Cell_line .: Line_loop .: Loop_zone
  ELSE NONE.

(** *** [class Production] *)

Definition Production_planner_user (self : Production)
  : outcome (option User) :=
  this self .: Production_planner .: Planner_user
  IF this self .: Production_planner ELSE NONE.

Definition Production_team_leader_user (self : Production)
  : outcome (option User) :=
  this self .: Production_team_leader .: TeamLeader_user
  IF this self .: Production_team_leader ELSE NONE.

Definition Production_loop (self : Production) : outcome (option Loop) :=
  this self .: Production_line .: Line_loop
  IF this self .: Production_line ELSE NONE.

Definition Production_zone (self : Production) : outcome (option Zone) :=
  this self .: Production_line .: Line_loop .: Loop_zone
  IF this self .: Production_line
     AND this self .: Production_line .: Line_loop
  ELSE NONE.

Definition Production_plant (self : Production) : outcome (option Plant) :=
  this self .: Production_line .: Line_loop .: Loop_zone .: Zone_plant
  IF this self .: Production_line
     AND this self .: Production_line .: Line_loop
     AND this self .: Production_line .: Line_loop .: Loop_zone
  ELSE NONE.

(** *** [class Loss] *)

Definition Loss_shift (self : Loss) : outcome (option Shift) :=
  this self .: Loss_production .: Production_shift
  IF this self .: Loss_production ELSE NONE.

Definition Loss_planner (self : Loss) : outcome (option Planner) :=
  this self .: Loss_production .: Production_planner
  IF this self .: Loss_production ELSE NONE.

Definition Loss_team_leader (self : Loss) : outcome (option TeamLeader) :=
  this self .: Loss_production .: Production_team_leader
  IF this self .: Loss_production ELSE NONE.

Definition Loss_planner_user (self : Loss) : outcome (option User) :=
  this self .: Loss_production .: Production_planner .: Planner_user
  IF this self .: Loss_production
     AND this self .: Loss_production .: Production_planner
  ELSE NONE.

Definition Loss_team_leader_user (self : Loss) : outcome (option User) :=
  this self .: Loss_production .: Production_team_leader .: TeamLeader_user
  IF this self .: Loss_production
     AND this self .: Loss_production .: Production_team_leader
  ELSE NONE.

Definition Loss_line (self : Loss) : outcome (option Line) :=
  this self .: Loss_production .: Production_line
  IF this self .: Loss_production ELSE NONE.

Definition Loss_loop (self : Loss) : outcome (option Loop) :=
  this self .: Loss_production .: Production_line .: Line_loop
  IF this self .: Loss_production
     AND this self .: Loss_production .: Production_line
  ELSE NONE.

Definition Loss_zone (self : Loss) : outcome (option Zone) :=
  this self .: Loss_production .: Production_line .: Line_loop .: Loop_zone
  IF this self .: Loss_production
     AND this self .: Loss_production .: Production_line
     AND this self .: Loss_production .: Production_line .: Line_loop
  ELSE NONE.

Definition Loss_plant (self : Loss) : outcome (option Plant) :=
  this self .: Loss_production .: Production_line .: Line_loop .: Loop_zone
    .: Zone_plant
  IF this self .: Loss_production
     AND this self .: Loss_production .: Production_line
     AND this self .: Loss_production .: Production_line .: Line_loop
     AND this self .: Loss_production .: Production_line .: Line_loop
           .: Loop_zone
  ELSE NONE.

(** *** [class Attendance] *)

Definition Attendance_member_user (self : Attendance) : outcome (option User) :=
  this self .: Attendance_member .: Member_user
  IF this self .: Attendance_member ELSE NONE.

Definition Attendance_team_leader_user (self : Attendance)
  : outcome (option User) :=
  this self .: Attendance_team_leader .: TeamLeader_user
  IF this self .: Attendance_team_leader ELSE NONE.

(** Working cell hierarchy *)

Definition Attendance_working_line (self : Attendance)
  : outcome (option Line) :=
  this self .: Attendance_working_cell .: Cell_line
  IF this self .: Attendance_working_cell ELSE NONE.

Definition Attendance_working_loop (self : Attendance)
  : outcome (option Loop) :=
  this self .: Attendance_working_cell .: Cell_line .: Line_loop
  IF this self .: Attendance_working_cell
     AND this self .: Attendance_working_cell .: Cell_line
  ELSE NONE.

Definition Attendance_working_zone (self : Attendance)
  : outcome (option Zone) :=
  this self .: Attendance_working_cell .: Cell_line .: Line_loop .: Loop_zone
  IF this self .: Attendance_working_cell
     AND this self .: Attendance_working_cell .: Cell_line
     AND this self .: Attendance_working_cell .: Cell_line .: Line_loop
  ELSE NONE.

Definition Attendance_working_plant (self : Attendance)
  : outcome (option Plant) :=
  this self .: Attendance_working_cell .: Cell_line .: Line_loop .: Loop_zone
    .: Zone_plant
  IF this self .: Attendance_working_cell
     AND this self .: Attendance_working_cell .: Cell_line
     AND this self .: Attendance_working_cell .: Cell_line .: Line_loop
     AND this self .: Attendance_working_cell .: Cell_line .: Line_loop
           .: Loop_zone
  ELSE NONE.

(** Member's normal location hierarchy *)

Definition Attendance_member_cell (self : Attendance) : outcome (option Cell) :=
  this self .: Attendance_member .: Member_cell
  IF this self .: Attendance_member ELSE NONE.

Definition Attendance_member_line (self : Attendance) : outcome (option Line) :=
  this self .: Attendance_member .: Member_cell .: Cell_line
  IF this self .: Attendance_member
     AND this self .: Attendance_member .: Member_cell
  ELSE NONE.

Definition Attendance_member_loop (self : Attendance) : outcome (option Loop) :=
  this self .: Attendance_member .: Member_cell .: Cell_line .: Line_loop
  IF this self .: Attendance_member
     AND this self .: Attendance_member .: Member_cell
     AND this self .: Attendance_member .: Member_cell .: Cell_line
  ELSE NONE.

Definition Attendance_member_zone (self : Attendance) : outcome (option Zone) :=
  this self .: Attendance_member .: Member_cell .: Cell_line .: Line_loop
    .: Loop_zone
  IF this self .: Attendance_member
     AND this self .: Attendance_member .: Member_cell
     AND this self .: Attendance_member .: Member_cell .: Cell_line
     AND this self .: Attendance_member .: Member_cell .: Cell_line
           .: Line_loop
  ELSE NONE.

Definition Attendance_member_plant (self : Attendance)
  : outcome (option Plant) :=
  this self .: Attendance_member .: Member_cell .: Cell_line .: Line_loop
    .: Loop_zone .: Zone_plant
  IF this self .: Attendance_member
     AND this self .: Attendance_member .: Member_cell
     AND this self .: Attendance_member .: Member_cell .: Cell_line
     AND this self .: Attendance_member .: Member_cell .: Cell_line
           .: Line_loop
     AND this self .: Attendance_member .: Member_cell .: Cell_line
           .: Line_loop .: Loop_zone
  ELSE NONE.

End Models.

(** ** Writes

    The classes define no methods that write: rows are created by the
    declarative constructor, which takes one keyword per column, and
    changed by assigning to a column.  Column defaults are applied when
    the row is first flushed, [onupdate] when an UPDATE is issued. *)

Record mixin_kwargs := mk_mixin_kwargs {
  kw_created_at : option Z;
  kw_updated_at : option Z;
  kw_deleted_at : option Z;
  kw_is_deleted : option bool
}.

Definition no_kwargs : mixin_kwargs := mk_mixin_kwargs None None None None.

(** [default=func.now()] for the two timestamps, [default=False] for
    [is_deleted], no default for [deleted_at]. *)
Definition TimestampMixin_init (now : Z) (kw : mixin_kwargs) : TimestampMixin :=
  {| created_at := default now (kw_created_at kw);
     updated_at := default now (kw_updated_at kw);
     deleted_at := kw_deleted_at kw;
     is_deleted := default false (kw_is_deleted kw) |}.

(** Modelled from the spec: [softDelete()], which the source does not
    define.  It sets [is_deleted] and stamps [deleted_at] with the
    current time; on an entity already deleted it does nothing (the
    idempotent policy of the two the spec allows). *)
Definition softDelete (now : Z) (m : TimestampMixin) : TimestampMixin :=
  if is_deleted m then m
  else {| created_at := created_at m;
          updated_at := now;
          deleted_at := Some now;
          is_deleted := true |}.

(** One UPDATE of a row, as far as the mixin columns see it. *)
Inductive write :=
  | Assign_created_at (t : Z)
  | Assign_updated_at (t : Z)
  | Assign_deleted_at (t : option Z)
  | Assign_is_deleted (b : bool)
  | Assign_own          (* only columns of the class itself are assigned *)
  | SoftDelete.

(** [updated_at] has [onupdate=func.now()]: it is refreshed by every
    UPDATE that does not assign it. *)
Definition flush (now : Z) (w : write) (m : TimestampMixin) : TimestampMixin :=
  match w with
  | Assign_created_at t =>
      {| created_at := t; updated_at := now;
         deleted_at := deleted_at m; is_deleted := is_deleted m |}
  | Assign_updated_at t =>
      {| created_at := created_at m; updated_at := t;
         deleted_at := deleted_at m; is_deleted := is_deleted m |}
  | Assign_deleted_at d =>
      {| created_at := created_at m; updated_at := now;
         deleted_at := d; is_deleted := is_deleted m |}
  | Assign_is_deleted b =>
      {| created_at := created_at m; updated_at := now;
         deleted_at := deleted_at m; is_deleted := b |}
  | Assign_own =>
      {| created_at := created_at m; updated_at := now;
         deleted_at := deleted_at m; is_deleted := is_deleted m |}
  | SoftDelete => softDelete now m
  end.

(** A history of writes, each with the time it was flushed at. *)
Fixpoint run (ws : list (Z * write)) (m : TimestampMixin) : TimestampMixin :=
  match ws with
  | [] => m
  | (now, w) :: ws => run ws (flush now w m)
  end.

(** The audit invariant of the spec. *)
Definition audit_ok (m : TimestampMixin) : Prop :=
  is_deleted m = true ↔ deleted_at m ≠ None.

(** Writes that leave [deleted_at] and [is_deleted] to [softDelete]. *)
Definition disciplined (w : write) : bool :=
  match w with
  | Assign_deleted_at _ | Assign_is_deleted _ => false
  | _ => true
  end.

(** *** Constructors

    [declarative_base()] gives every class the constructor that stores
    each keyword in the attribute of that name, and nothing else. *)

Definition Plant_init (now : Z) (id : Z) (name : option string)
    (kw : mixin_kwargs) : outcome Plant :=
  Returns (mkPlant id name (TimestampMixin_init now kw)).





Definition User_init (now : Z) (sap_id : string) (name : option string)
    (role : option UserRole) (password : option string) (kw : mixin_kwargs)
  : outcome User :=
  Returns (mkUser sap_id name role password (TimestampMixin_init now kw)).








Definition LossReason_init (now : Z) (id : Z) (title department : option string)
    (kw : mixin_kwargs) : outcome LossReason :=
  Returns (mkLossReason id title department (TimestampMixin_init now kw)).


Definition AttendanceType_init (now : Z) (id : Z) (title color : option string)
    (kw : mixin_kwargs) : outcome AttendanceType :=
  Returns (mkAttendanceType id title color (TimestampMixin_init now kw)).


(** *** Row updates in the store

    An UPDATE of the row under key [k]; no row, no change. *)

Definition update_plant (f : Plant → Plant) (k : Z) (db : DB) : DB :=
  mkDB (alter f k (tbl_plant db)) (tbl_zone db) (tbl_loop db) (tbl_line db)
    (tbl_cell db) (tbl_user db) (tbl_admin db) (tbl_plant_admin db)
    (tbl_planner db) (tbl_team_leader db) (tbl_member db) (tbl_shift db)
    (tbl_production db) (tbl_loss_reason db) (tbl_loss db)
    (tbl_attendance_type db) (tbl_attendance db).

Definition update_zone (f : Zone → Zone) (k : Z) (db : DB) : DB :=
  mkDB (tbl_plant db) (alter f k (tbl_zone db)) (tbl_loop db) (tbl_line db)
    (tbl_cell db) (tbl_user db) (tbl_admin db) (tbl_plant_admin db)
    (tbl_planner db) (tbl_team_leader db) (tbl_member db) (tbl_shift db)
    (tbl_production db) (tbl_loss_reason db) (tbl_loss db)
    (tbl_attendance_type db) (tbl_attendance db).

Definition update_loop (f : Loop → Loop) (k : Z) (db : DB) : DB :=
  mkDB (tbl_plant db) (tbl_zone db) (alter f k (tbl_loop db)) (tbl_line db)
    (tbl_cell db) (tbl_user db) (tbl_admin db) (tbl_plant_admin db)
    (tbl_planner db) (tbl_team_leader db) (tbl_member db) (tbl_shift db)
    (tbl_production db) (tbl_loss_reason db) (tbl_loss db)
    (tbl_attendance_type db) (tbl_attendance db).

Definition update_line (f : Line → Line) (k : Z) (db : DB) : DB :=
  mkDB (tbl_plant db) (tbl_zone db) (tbl_loop db) (alter f k (tbl_line db))
    (tbl_cell db) (tbl_user db) (tbl_admin db) (tbl_plant_admin db)
    (tbl_planner db) (tbl_team_leader db) (tbl_member db) (tbl_shift db)
    (tbl_production db) (tbl_loss_reason db) (tbl_loss db)
    (tbl_attendance_type db) (tbl_attendance db).


Definition Zone_deleted (now : Z) (z : Zone) : Zone :=
  mkZone (Zone_id z) (Zone_name z) (Zone_plant_id z)
    (softDelete now (Zone_mixin z)).

Definition Loop_deleted (now : Z) (lo : Loop) : Loop :=
  mkLoop (Loop_id lo) (Loop_name lo) (Loop_zone_id lo)
    (softDelete now (Loop_mixin lo)).

Definition Line_deleted (now : Z) (l : Line) : Line :=
  mkLine (Line_id l) (Line_name l) (Line_loop_id l)
    (softDelete now (Line_mixin l)).


Definition softDelete_Zone (now k : Z) : DB → DB :=
  update_zone (Zone_deleted now) k.

Definition softDelete_Loop (now k : Z) : DB → DB :=
  update_loop (Loop_deleted now) k.

Definition softDelete_Line (now k : Z) : DB → DB :=
  update_line (Line_deleted now) k.

(** Modelled from the spec: [reparent(newParentRef)] on a Zone, which in
    the source is the assignment [zone.plant_id = new]: one UPDATE of
    the Zone row. *)
Definition Zone_reparented (now : Z) (new : option Z) (z : Zone) : Zone :=
  mkZone (Zone_id z) (Zone_name z) new (flush now Assign_own (Zone_mixin z)).

Definition reparent_Zone (now k : Z) (new : option Z) : DB → DB :=
  update_zone (Zone_reparented now new) k.

(** ** Chains of hops *)

(** Two hops in a row: the second is taken only when the first finds a
    row. *)
Definition hop_then {A B C} (f : A → option B) (g : B → option C)
  : A → option C :=
  λ a, f a ≫= g.

Notation "f '>=>' g" := (hop_then f g)
  (at level 50, left associativity) : py_scope.

(** ** One hop, then the next level *)

(** [x.prop if x else None], for a reference [x] already loaded. *)
Definition via {A B} (x : option A) (prop : A → outcome (option B))
  : outcome (option B) :=
  match x with
  | Some a => prop a
  | None => Returns None
  end.

(** ** The live walk of the spec *)

(** Modelled from the spec: a link is live when it is set and the row it
    leads to is not marked deleted. *)
Definition live {A} (mixin : A → TimestampMixin) (o : option A) : option A :=
  o ≫= λ a, if is_deleted (mixin a) then None else Some a.

(** Modelled from the spec: the live walk from a Cell to its Plant, which
    the source does not have: the hops of [Cell.plant], each link checked
    for [is_deleted], unresolved at the first deleted one. *)
Definition spec_live_Cell_plant (db : DB) (self : Cell) : option Plant :=
  live Line_mixin (Cell_line db self) ≫= λ l,
  live Loop_mixin (Line_loop db l) ≫= λ lo,
  live Zone_mixin (Loop_zone db lo) ≫= λ z,
  live Plant_mixin (Zone_plant db z).

(** ** Stores that agree on the hierarchy *)

(** Two stores with the same organisational hierarchy; the other tables
    are free to differ. *)
Definition same_hierarchy (db db' : DB) : Prop :=
  tbl_plant db = tbl_plant db' ∧ tbl_zone db = tbl_zone db'
  ∧ tbl_loop db = tbl_loop db' ∧ tbl_line db = tbl_line db'
  ∧ tbl_cell db = tbl_cell db'.

(** ** Where a walk stops *)


(** ** Enumerations: names and lookup by value

    The member names, in definition order, and [E(value)], the lookup of
    a member by its value, which fails ([ValueError]) when no member has
    that value: [None] here. *)

Definition UserRole_members : list UserRole :=
  [SUPER_ADMIN; ADMIN; PLANT_ADMIN; PLANNER; TEAM_LEADER; MEMBER].

Definition DayNight_members : list DayNight := [DAY; NIGHT].

Definition ShiftType_members : list ShiftType := [SHIFT_A; SHIFT_B; SHIFT_C].

Definition Hour_members : list Hour :=
  [HOUR_01; HOUR_02; HOUR_03; HOUR_04; HOUR_05; HOUR_06;
   HOUR_07; HOUR_08; HOUR_09; HOUR_10; HOUR_11; HOUR_12].

Definition UserRole_name (r : UserRole) : string :=
  match r with
  | SUPER_ADMIN => "SUPER_ADMIN" | ADMIN => "ADMIN"
  | PLANT_ADMIN => "PLANT_ADMIN" | PLANNER => "PLANNER"
  | TEAM_LEADER => "TEAM_LEADER" | MEMBER => "MEMBER"
  end.

Definition DayNight_name (d : DayNight) : string :=
  match d with DAY => "DAY" | NIGHT => "NIGHT" end.

Definition ShiftType_name (s : ShiftType) : string :=
  match s with
  | SHIFT_A => "SHIFT_A" | SHIFT_B => "SHIFT_B" | SHIFT_C => "SHIFT_C"
  end.

Definition Hour_name (h : Hour) : string :=
  match h with
  | HOUR_01 => "HOUR_01" | HOUR_02 => "HOUR_02" | HOUR_03 => "HOUR_03"
  | HOUR_04 => "HOUR_04" | HOUR_05 => "HOUR_05" | HOUR_06 => "HOUR_06"
  | HOUR_07 => "HOUR_07" | HOUR_08 => "HOUR_08" | HOUR_09 => "HOUR_09"
  | HOUR_10 => "HOUR_10" | HOUR_11 => "HOUR_11" | HOUR_12 => "HOUR_12"
  end.

(** The first member, in definition order, whose value is [s]. *)
Definition by_value {E} (value : E → string) (members : list E) (s : string)
  : option E :=
  List.find (λ m, String.eqb (value m) s) members.

Definition UserRole_of_value : string → option UserRole :=
  by_value UserRole_value UserRole_members.

Definition DayNight_of_value : string → option DayNight :=
  by_value DayNight_value DayNight_members.

Definition ShiftType_of_value : string → option ShiftType :=
  by_value ShiftType_value ShiftType_members.

Definition Hour_of_value : string → option Hour :=
  by_value Hour_value Hour_members.

(** A string with every underscore turned into a hyphen. *)
Fixpoint hyphenated (s : string) : string :=
  match s with
  | EmptyString => EmptyString
  | String c s =>
      String (if Ascii.eqb c "_"%char then "-"%char else c) (hyphenated s)
  end.

(** ** The other side of a relationship

    [relationship("Child", back_populates=...)] on the class that does
    not hold the foreign key.  A collection is the rows of the child
    table whose foreign key is the parent's primary key; no order is
    declared, so it is kept as the sub-table.  With [uselist=False] the
    child's primary key is the foreign key, and the relationship is the
    one row under the parent's key, if any. *)

Definition one_to_many {K V P : Type} `{Countable K} `{EqDecision P}
    (fk : V → option P) (parent : P) (tbl : gmap K V) : gmap K V :=
  filter (λ kv : K * V, fk kv.2 = Some parent) tbl.

Definition Plant_zones (db : DB) (self : Plant) : gmap Z Zone :=
  one_to_many Zone_plant_id (Plant_id self) (tbl_zone db).

Definition Plant_plant_admins (db : DB) (self : Plant)
  : gmap string PlantAdmin :=
  one_to_many PlantAdmin_plant_id (Plant_id self) (tbl_plant_admin db).

Definition Plant_planners (db : DB) (self : Plant) : gmap string Planner :=
  one_to_many Planner_plant_id (Plant_id self) (tbl_planner db).

Definition Plant_shifts (db : DB) (self : Plant) : gmap Z Shift :=
  one_to_many Shift_plant_id (Plant_id self) (tbl_shift db).

Definition Zone_loops (db : DB) (self : Zone) : gmap Z Loop :=
  one_to_many Loop_zone_id (Zone_id self) (tbl_loop db).

Definition Loop_lines (db : DB) (self : Loop) : gmap Z Line :=
  one_to_many Line_loop_id (Loop_id self) (tbl_line db).

Definition Line_cells (db : DB) (self : Line) : gmap Z Cell :=
  one_to_many Cell_line_id (Line_id self) (tbl_cell db).

Definition Line_team_leaders (db : DB) (self : Line) : gmap string TeamLeader :=
  one_to_many TeamLeader_line_id (Line_id self) (tbl_team_leader db).

Definition Line_productions (db : DB) (self : Line) : gmap Z Production :=
  one_to_many Production_line_id (Line_id self) (tbl_production db).

Definition Cell_members (db : DB) (self : Cell) : gmap string Member :=
  one_to_many Member_cell_id (Cell_id self) (tbl_member db).

(** [foreign_keys="Attendance.working_cell_id"] *)
Definition Cell_working_members (db : DB) (self : Cell) : gmap Z Attendance :=
  one_to_many Attendance_working_cell_id (Cell_id self) (tbl_attendance db).

Definition Planner_shifts (db : DB) (self : Planner) : gmap Z Shift :=
  one_to_many Shift_planner_id (Planner_user_id self) (tbl_shift db).

Definition Planner_productions (db : DB) (self : Planner) : gmap Z Production :=
  one_to_many Production_planner_id (Planner_user_id self) (tbl_production db).

Definition TeamLeader_productions (db : DB) (self : TeamLeader)
  : gmap Z Production :=
  one_to_many Production_team_leader_id (TeamLeader_user_id self)
    (tbl_production db).

Definition TeamLeader_attendances (db : DB) (self : TeamLeader)
  : gmap Z Attendance :=
  one_to_many Attendance_team_leader_id (TeamLeader_user_id self)
    (tbl_attendance db).

Definition Member_attendances (db : DB) (self : Member) : gmap Z Attendance :=
  one_to_many Attendance_member_id (Member_user_id self) (tbl_attendance db).

Definition Shift_productions (db : DB) (self : Shift) : gmap Z Production :=
  one_to_many Production_shift_id (Shift_id self) (tbl_production db).

Definition Shift_attendances (db : DB) (self : Shift) : gmap Z Attendance :=
  one_to_many Attendance_shift_id (Shift_id self) (tbl_attendance db).

Definition Production_losses (db : DB) (self : Production) : gmap Z Loss :=
  one_to_many Loss_production_id (Production_id self) (tbl_loss db).

Definition LossReason_losses (db : DB) (self : LossReason) : gmap Z Loss :=
  one_to_many Loss_loss_reason_id (LossReason_id self) (tbl_loss db).

Definition AttendanceType_attendances (db : DB) (self : AttendanceType)
  : gmap Z Attendance :=
  one_to_many Attendance_attendance_type_id (AttendanceType_id self)
    (tbl_attendance db).

(** [uselist=False] *)

Definition User_admin (db : DB) (self : User) : option Admin :=
  tbl_admin db !! User_sap_id self.

Definition User_plant_admin (db : DB) (self : User) : option PlantAdmin :=
  tbl_plant_admin db !! User_sap_id self.

Definition User_planner (db : DB) (self : User) : option Planner :=
  tbl_planner db !! User_sap_id self.

Definition User_team_leader (db : DB) (self : User) : option TeamLeader :=
  tbl_team_leader db !! User_sap_id self.

Definition User_member (db : DB) (self : User) : option Member :=
  tbl_member db !! User_sap_id self.

(** ** Stores whose rows sit under their own primary key *)

Definition keyed {K V} `{Countable K} (pk : V → K) (tbl : gmap K V) : Prop :=
  map_Forall (λ k v, pk v = k) tbl.

Definition well_keyed (db : DB) : Prop :=
  keyed Plant_id (tbl_plant db) ∧ keyed Zone_id (tbl_zone db)
  ∧ keyed Loop_id (tbl_loop db) ∧ keyed Line_id (tbl_line db)
  ∧ keyed Cell_id (tbl_cell db) ∧ keyed User_sap_id (tbl_user db)
  ∧ keyed Admin_user_id (tbl_admin db)
  ∧ keyed PlantAdmin_user_id (tbl_plant_admin db)
  ∧ keyed Planner_user_id (tbl_planner db)
  ∧ keyed TeamLeader_user_id (tbl_team_leader db)
  ∧ keyed Member_user_id (tbl_member db) ∧ keyed Shift_id (tbl_shift db)
  ∧ keyed Production_id (tbl_production db)
  ∧ keyed LossReason_id (tbl_loss_reason db) ∧ keyed Loss_id (tbl_loss db)
  ∧ keyed AttendanceType_id (tbl_attendance_type db)
  ∧ keyed Attendance_id (tbl_attendance db).

(** ** Levels of one walk

    The next level of a walk already evaluated: one more hop when it
    found a row, [None] when it did not. *)
Definition and_then {A B} (o : outcome (option A)) (hop : A → option B)
  : outcome (option B) :=
  match o with
  | Returns x => Returns (x ≫= hop)
  | Raises e => Raises e
  end.

(** ** Writes to the mixin columns of a row in the store *)

Definition update_cell (f : Cell → Cell) (k : Z) (db : DB) : DB :=
  mkDB (tbl_plant db) (tbl_zone db) (tbl_loop db) (tbl_line db)
    (alter f k (tbl_cell db)) (tbl_user db) (tbl_admin db)
    (tbl_plant_admin db) (tbl_planner db) (tbl_team_leader db)
    (tbl_member db) (tbl_shift db) (tbl_production db) (tbl_loss_reason db)
    (tbl_loss db) (tbl_attendance_type db) (tbl_attendance db).

Definition Plant_flush (now : Z) (w : write) (p : Plant) : Plant :=
  mkPlant (Plant_id p) (Plant_name p) (flush now w (Plant_mixin p)).

Definition Zone_flush (now : Z) (w : write) (z : Zone) : Zone :=
  mkZone (Zone_id z) (Zone_name z) (Zone_plant_id z)
    (flush now w (Zone_mixin z)).

Definition Loop_flush (now : Z) (w : write) (lo : Loop) : Loop :=
  mkLoop (Loop_id lo) (Loop_name lo) (Loop_zone_id lo)
    (flush now w (Loop_mixin lo)).

Definition Line_flush (now : Z) (w : write) (l : Line) : Line :=
  mkLine (Line_id l) (Line_name l) (Line_loop_id l)
    (flush now w (Line_mixin l)).

Definition Cell_flush (now : Z) (w : write) (c : Cell) : Cell :=
  mkCell (Cell_id c) (Cell_name c) (Cell_line_id c)
    (flush now w (Cell_mixin c)).

(** An UPDATE that assigns neither timestamp. *)
Definition keeps_timestamps (w : write) : bool :=
  match w with
  | Assign_created_at _ | Assign_updated_at _ | SoftDelete => false
  | _ => true
  end.

(** The times of a history do not go back, starting from [t]. *)
Fixpoint clock_from (t : Z) (ws : list (Z * write)) : Prop :=
  match ws with
  | [] => True
  | (now, _) :: ws => t ≤ now ∧ clock_from now ws
  end.

(** ** A small plant floor

    Two plants, each with one zone, loop, line and cell; a member whose
    home cell is in the first plant, an attendance of that member worked
    in the second; a production on the first line with one loss. *)

Module Floor.

Definition m0 : TimestampMixin := TimestampMixin_init 0 no_kwargs.

Definition P1 : Plant := mkPlant 1 (Some "P1") m0.
Definition P2 : Plant := mkPlant 2 (Some "P2") m0.
Definition Z1 : Zone := mkZone 1 (Some "Z1") (Some 1) m0.
Definition Z2 : Zone := mkZone 2 (Some "Z2") (Some 2) m0.
Definition L1 : Loop := mkLoop 1 (Some "L1") (Some 1) m0.
Definition L2 : Loop := mkLoop 2 (Some "L2") (Some 2) m0.
Definition Ln1 : Line := mkLine 1 (Some "Ln1") (Some 1) m0.
Definition Ln2 : Line := mkLine 2 (Some "Ln2") (Some 2) m0.
Definition C1 : Cell := mkCell 1 (Some "C1") (Some 1) m0.
Definition C2 : Cell := mkCell 2 (Some "C2") (Some 2) m0.
Definition U1 : User := mkUser "m1" (Some "Mina") (Some MEMBER) None m0.
Definition M1 : Member := mkMember "m1" (Some 1) m0.
Definition A1 : Attendance :=
  mkAttendance 1 (Some "m1") None None (Some 2) None m0.
Definition PR1 : Production :=
  mkProduction 1 (Some 100) (Some 90) (Some 2) (Some 1) (Some 0)
    (Some HOUR_01) (Some 1) None None None m0.
Definition LS1 : Loss := mkLoss 1 (Some 10) None (Some 1) m0.

(** A production entered without a line, a loss booked on it, and a loss
    booked on no production. *)
Definition PR2 : Production :=
  mkProduction 2 (Some 50) None None None None None None None None None m0.
Definition LS2 : Loss := mkLoss 2 (Some 4) None (Some 2) m0.
Definition LS3 : Loss := mkLoss 3 (Some 1) None None m0.

(** The same attendance booked for an unknown member. *)
Definition A2 : Attendance :=
  mkAttendance 2 (Some "m9") None None (Some 2) None m0.

Definition db : DB :=
  mkDB {[ 1 := P1; 2 := P2 ]} {[ 1 := Z1; 2 := Z2 ]} {[ 1 := L1; 2 := L2 ]}
    {[ 1 := Ln1; 2 := Ln2 ]} {[ 1 := C1; 2 := C2 ]} {[ "m1" := U1 ]} ∅ ∅ ∅ ∅
    {[ "m1" := M1 ]} ∅ {[ 1 := PR1; 2 := PR2 ]} ∅
    {[ 1 := LS1; 2 := LS2; 3 := LS3 ]} ∅ {[ 1 := A1; 2 := A2 ]}.

(** The floor with the personnel tables emptied. *)
Definition db_unstaffed : DB :=
  mkDB (tbl_plant db) (tbl_zone db) (tbl_loop db) (tbl_line db) (tbl_cell db)
    ∅ ∅ ∅ ∅ ∅ ∅ (tbl_shift db) (tbl_production db) (tbl_loss_reason db)
    (tbl_loss db) (tbl_attendance_type db) (tbl_attendance db).

End Floor.

(** * Properties *)

(** ** Evaluating a property *)

Ltac hops :=
  repeat (cbn [getattr if_else py_and this truthy ref_truthy bool_truthy
               mbind option_bind];
          try reflexivity;
          match goal with
          | |- context [match ?o with Some _ => _ | None => _ end] =>
              destruct o eqn:?
          end).

Section Walks.

Variable db : DB.

(** Every hop of every property is guarded: the property is the
    composition of its hops in the option monad. *)

Lemma Loop_plant_hops (self : Loop) :
  Loop_plant db self = Returns (Loop_zone db self ≫= Zone_plant db).
Proof. unfold Loop_plant. hops. Qed.

Lemma Line_zone_hops (self : Line) :
  Line_zone db self = Returns (Line_loop db self ≫= Loop_zone db).
Proof. unfold Line_zone. hops. Qed.

Lemma Line_plant_hops (self : Line) :
  Line_plant db self
  = Returns ((Line_loop db self ≫= Loop_zone db) ≫= Zone_plant db).
Proof. unfold Line_plant. hops. Qed.

Lemma Cell_loop_hops (self : Cell) :
  Cell_loop db self = Returns (Cell_line db self ≫= Line_loop db).
Proof. unfold Cell_loop. hops. Qed.

Lemma Cell_zone_hops (self : Cell) :
  Cell_zone db self
  = Returns ((Cell_line db self ≫= Line_loop db) ≫= Loop_zone db).
Proof. unfold Cell_zone. hops. Qed.

Lemma Cell_plant_hops (self : Cell) :
  Cell_plant db self
  = Returns (((Cell_line db self ≫= Line_loop db) ≫= Loop_zone db)
             ≫= Zone_plant db).
Proof. unfold Cell_plant. hops. Qed.

Lemma TeamLeader_loop_hops (self : TeamLeader) :
  TeamLeader_loop db self
  = Returns (TeamLeader_line db self ≫= Line_loop db).
Proof. unfold TeamLeader_loop. hops. Qed.

Lemma TeamLeader_zone_hops (self : TeamLeader) :
  TeamLeader_zone db self
  = Returns ((TeamLeader_line db self ≫= Line_loop db) ≫= Loop_zone db).
Proof. unfold TeamLeader_zone. hops. Qed.

Lemma TeamLeader_plant_hops (self : TeamLeader) :
  TeamLeader_plant db self
  = Returns (((TeamLeader_line db self ≫= Line_loop db) ≫= Loop_zone db)
             ≫= Zone_plant db).
Proof. unfold TeamLeader_plant. hops. Qed.

Lemma Member_line_hops (self : Member) :
  Member_line db self
  = Returns (Member_cell db self ≫= Cell_line db).
Proof. unfold Member_line. hops. Qed.

Lemma Member_loop_hops (self : Member) :
  Member_loop db self
  = Returns ((Member_cell db self ≫= Cell_line db) ≫= Line_loop db).
Proof. unfold Member_loop. hops. Qed.

Lemma Member_zone_hops (self : Member) :
  Member_zone db self
  = Returns (((Member_cell db self ≫= Cell_line db) ≫= Line_loop db)
             ≫= Loop_zone db).
Proof. unfold Member_zone. hops. Qed.

Lemma Member_plant_hops (self : Member) :
  Member_plant db self
  = Returns ((((Member_cell db self ≫= Cell_line db) ≫= Line_loop db)
             ≫= Loop_zone db) ≫= Zone_plant db).
Proof. unfold Member_plant. hops. Qed.

Lemma Production_planner_user_hops (self : Production) :
  Production_planner_user db self
  = Returns (Production_planner db self ≫= Planner_user db).
Proof. unfold Production_planner_user. hops. Qed.

Lemma Production_team_leader_user_hops (self : Production) :
  Production_team_leader_user db self
  = Returns (Production_team_leader db self ≫= TeamLeader_user db).
Proof. unfold Production_team_leader_user. hops. Qed.

Lemma Production_loop_hops (self : Production) :
  Production_loop db self
  = Returns (Production_line db self ≫= Line_loop db).
Proof. unfold Production_loop. hops. Qed.

Lemma Production_zone_hops (self : Production) :
  Production_zone db self
  = Returns ((Production_line db self ≫= Line_loop db) ≫= Loop_zone db).
Proof. unfold Production_zone. hops. Qed.

Lemma Production_plant_hops (self : Production) :
  Production_plant db self
  = Returns (((Production_line db self ≫= Line_loop db) ≫= Loop_zone db)
             ≫= Zone_plant db).
Proof. unfold Production_plant. hops. Qed.

Lemma Loss_shift_hops (self : Loss) :
  Loss_shift db self
  = Returns (Loss_production db self ≫= Production_shift db).
Proof. unfold Loss_shift. hops. Qed.

Lemma Loss_planner_hops (self : Loss) :
  Loss_planner db self
  = Returns (Loss_production db self ≫= Production_planner db).
Proof. unfold Loss_planner. hops. Qed.

Lemma Loss_team_leader_hops (self : Loss) :
  Loss_team_leader db self
  = Returns (Loss_production db self ≫= Production_team_leader db).
Proof. unfold Loss_team_leader. hops. Qed.

Lemma Loss_planner_user_hops (self : Loss) :
  Loss_planner_user db self
  = Returns ((Loss_production db self ≫= Production_planner db)
             ≫= Planner_user db).
Proof. unfold Loss_planner_user. hops. Qed.

Lemma Loss_team_leader_user_hops (self : Loss) :
  Loss_team_leader_user db self
  = Returns ((Loss_production db self ≫= Production_team_leader db)
             ≫= TeamLeader_user db).
Proof. unfold Loss_team_leader_user. hops. Qed.

Lemma Loss_line_hops (self : Loss) :
  Loss_line db self
  = Returns (Loss_production db self ≫= Production_line db).
Proof. unfold Loss_line. hops. Qed.

Lemma Loss_loop_hops (self : Loss) :
  Loss_loop db self
  = Returns ((Loss_production db self ≫= Production_line db) ≫= Line_loop db).
Proof. unfold Loss_loop. hops. Qed.

Lemma Loss_zone_hops (self : Loss) :
  Loss_zone db self
  = Returns (((Loss_production db self ≫= Production_line db) ≫= Line_loop db)
             ≫= Loop_zone db).
Proof. unfold Loss_zone. hops. Qed.

Lemma Loss_plant_hops (self : Loss) :
  Loss_plant db self
  = Returns ((((Loss_production db self ≫= Production_line db) ≫= Line_loop db)
             ≫= Loop_zone db) ≫= Zone_plant db).
Proof. unfold Loss_plant. hops. Qed.

Lemma Attendance_member_user_hops (self : Attendance) :
  Attendance_member_user db self
  = Returns (Attendance_member db self ≫= Member_user db).
Proof. unfold Attendance_member_user. hops. Qed.

Lemma Attendance_team_leader_user_hops (self : Attendance) :
  Attendance_team_leader_user db self
  = Returns (Attendance_team_leader db self ≫= TeamLeader_user db).
Proof. unfold Attendance_team_leader_user. hops. Qed.

Lemma Attendance_working_line_hops (self : Attendance) :
  Attendance_working_line db self
  = Returns (Attendance_working_cell db self ≫= Cell_line db).
Proof. unfold Attendance_working_line. hops. Qed.

Lemma Attendance_working_loop_hops (self : Attendance) :
  Attendance_working_loop db self
  = Returns ((Attendance_working_cell db self ≫= Cell_line db) ≫= Line_loop db).
Proof. unfold Attendance_working_loop. hops. Qed.

Lemma Attendance_working_zone_hops (self : Attendance) :
  Attendance_working_zone db self
  = Returns (((Attendance_working_cell db self ≫= Cell_line db) ≫= Line_loop db)
             ≫= Loop_zone db).
Proof. unfold Attendance_working_zone. hops. Qed.

Lemma Attendance_working_plant_hops (self : Attendance) :
  Attendance_working_plant db self
  = Returns ((((Attendance_working_cell db self ≫= Cell_line db)
             ≫= Line_loop db) ≫= Loop_zone db) ≫= Zone_plant db).
Proof. unfold Attendance_working_plant. hops. Qed.

Lemma Attendance_member_cell_hops (self : Attendance) :
  Attendance_member_cell db self
  = Returns (Attendance_member db self ≫= Member_cell db).
Proof. unfold Attendance_member_cell. hops. Qed.

Lemma Attendance_member_line_hops (self : Attendance) :
  Attendance_member_line db self
  = Returns ((Attendance_member db self ≫= Member_cell db) ≫= Cell_line db).
Proof. unfold Attendance_member_line. hops. Qed.

Lemma Attendance_member_loop_hops (self : Attendance) :
  Attendance_member_loop db self
  = Returns (((Attendance_member db self ≫= Member_cell db) ≫= Cell_line db)
             ≫= Line_loop db).
Proof. unfold Attendance_member_loop. hops. Qed.

Lemma Attendance_member_zone_hops (self : Attendance) :
  Attendance_member_zone db self
  = Returns ((((Attendance_member db self ≫= Member_cell db) ≫= Cell_line db)
             ≫= Line_loop db) ≫= Loop_zone db).
Proof. unfold Attendance_member_zone. hops. Qed.

Lemma Attendance_member_plant_hops (self : Attendance) :
  Attendance_member_plant db self
  = Returns (((((Attendance_member db self ≫= Member_cell db) ≫= Cell_line db)
             ≫= Line_loop db) ≫= Loop_zone db) ≫= Zone_plant db).
Proof. unfold Attendance_member_plant. hops. Qed.

End Walks.

Create HintDb hops.

#[local] Hint Resolve Loop_plant_hops
  Line_zone_hops
  Line_plant_hops
  Cell_loop_hops
  Cell_zone_hops
  Cell_plant_hops
  TeamLeader_loop_hops
  TeamLeader_zone_hops
  TeamLeader_plant_hops
  Member_line_hops
  Member_loop_hops
  Member_zone_hops
  Member_plant_hops
  Production_planner_user_hops
  Production_team_leader_user_hops
  Production_loop_hops
  Production_zone_hops
  Production_plant_hops
  Loss_shift_hops
  Loss_planner_hops
  Loss_team_leader_hops
  Loss_planner_user_hops
  Loss_team_leader_user_hops
  Loss_line_hops
  Loss_loop_hops
  Loss_zone_hops
  Loss_plant_hops
  Attendance_member_user_hops
  Attendance_team_leader_user_hops
  Attendance_working_line_hops
  Attendance_working_loop_hops
  Attendance_working_zone_hops
  Attendance_working_plant_hops
  Attendance_member_cell_hops
  Attendance_member_line_hops
  Attendance_member_loop_hops
  Attendance_member_zone_hops
  Attendance_member_plant_hops : hops.

(** C1.  Whatever the store holds and whichever references are NULL or
    dangling, every derived property of the source evaluates without
    raising, and its value is what its chain of hops finds: the entity
    at the end of the parent-reference chain when every hop resolves,
    [None] as soon as one does not.  No other value can come out. *)
Theorem derived_properties_total (db : DB) :
  (∀ self : Loop,
      Loop_plant db self
      = Returns ((Loop_zone db >=> Zone_plant db) self))
  ∧ (∀ self : Line,
      Line_zone db self
      = Returns ((Line_loop db >=> Loop_zone db) self))
  ∧ (∀ self : Line,
      Line_plant db self
      = Returns ((Line_loop db >=> Loop_zone db >=> Zone_plant db) self))
  ∧ (∀ self : Cell,
      Cell_loop db self
      = Returns ((Cell_line db >=> Line_loop db) self))
  ∧ (∀ self : Cell,
      Cell_zone db self
      = Returns ((Cell_line db >=> Line_loop db >=> Loop_zone db) self))
  ∧ (∀ self : Cell,
      Cell_plant db self
      = Returns ((Cell_line db >=> Line_loop db >=> Loop_zone db
                  >=> Zone_plant db) self))
  ∧ (∀ self : TeamLeader,
      TeamLeader_loop db self
      = Returns ((TeamLeader_line db >=> Line_loop db) self))
  ∧ (∀ self : TeamLeader,
      TeamLeader_zone db self
      = Returns ((TeamLeader_line db >=> Line_loop db >=> Loop_zone db) self))
  ∧ (∀ self : TeamLeader,
      TeamLeader_plant db self
      = Returns ((TeamLeader_line db >=> Line_loop db >=> Loop_zone db
                  >=> Zone_plant db) self))
  ∧ (∀ self : Member,
      Member_line db self
      = Returns ((Member_cell db >=> Cell_line db) self))
  ∧ (∀ self : Member,
      Member_loop db self
      = Returns ((Member_cell db >=> Cell_line db >=> Line_loop db) self))
  ∧ (∀ self : Member,
      Member_zone db self
      = Returns ((Member_cell db >=> Cell_line db >=> Line_loop db
                  >=> Loop_zone db) self))
  ∧ (∀ self : Member,
      Member_plant db self
      = Returns ((Member_cell db >=> Cell_line db >=> Line_loop db
                  >=> Loop_zone db >=> Zone_plant db) self))
  ∧ (∀ self : Production,
      Production_planner_user db self
      = Returns ((Production_planner db >=> Planner_user db) self))
  ∧ (∀ self : Production,
      Production_team_leader_user db self
      = Returns ((Production_team_leader db >=> TeamLeader_user db) self))
  ∧ (∀ self : Production,
      Production_loop db self
      = Returns ((Production_line db >=> Line_loop db) self))
  ∧ (∀ self : Production,
      Production_zone db self
      = Returns ((Production_line db >=> Line_loop db >=> Loop_zone db) self))
  ∧ (∀ self : Production,
      Production_plant db self
      = Returns ((Production_line db >=> Line_loop db >=> Loop_zone db
                  >=> Zone_plant db) self))
  ∧ (∀ self : Loss,
      Loss_shift db self
      = Returns ((Loss_production db >=> Production_shift db) self))
  ∧ (∀ self : Loss,
      Loss_planner db self
      = Returns ((Loss_production db >=> Production_planner db) self))
  ∧ (∀ self : Loss,
      Loss_team_leader db self
      = Returns ((Loss_production db >=> Production_team_leader db) self))
  ∧ (∀ self : Loss,
      Loss_planner_user db self
      = Returns ((Loss_production db >=> Production_planner db
                  >=> Planner_user db) self))
  ∧ (∀ self : Loss,
      Loss_team_leader_user db self
      = Returns ((Loss_production db >=> Production_team_leader db
                  >=> TeamLeader_user db) self))
  ∧ (∀ self : Loss,
      Loss_line db self
      = Returns ((Loss_production db >=> Production_line db) self))
  ∧ (∀ self : Loss,
      Loss_loop db self
      = Returns ((Loss_production db >=> Production_line db
                  >=> Line_loop db) self))
  ∧ (∀ self : Loss,
      Loss_zone db self
      = Returns ((Loss_production db >=> Production_line db
                  >=> Line_loop db >=> Loop_zone db) self))
  ∧ (∀ self : Loss,
      Loss_plant db self
      = Returns ((Loss_production db >=> Production_line db
                  >=> Line_loop db >=> Loop_zone db >=> Zone_plant db) self))
  ∧ (∀ self : Attendance,
      Attendance_member_user db self
      = Returns ((Attendance_member db >=> Member_user db) self))
  ∧ (∀ self : Attendance,
      Attendance_team_leader_user db self
      = Returns ((Attendance_team_leader db >=> TeamLeader_user db) self))
  ∧ (∀ self : Attendance,
      Attendance_working_line db self
      = Returns ((Attendance_working_cell db >=> Cell_line db) self))
  ∧ (∀ self : Attendance,
      Attendance_working_loop db self
      = Returns ((Attendance_working_cell db >=> Cell_line db
                  >=> Line_loop db) self))
  ∧ (∀ self : Attendance,
      Attendance_working_zone db self
      = Returns ((Attendance_working_cell db >=> Cell_line db
                  >=> Line_loop db >=> Loop_zone db) self))
  ∧ (∀ self : Attendance,
      Attendance_working_plant db self
      = Returns ((Attendance_working_cell db >=> Cell_line db
                  >=> Line_loop db >=> Loop_zone db >=> Zone_plant db) self))
  ∧ (∀ self : Attendance,
      Attendance_member_cell db self
      = Returns ((Attendance_member db >=> Member_cell db) self))
  ∧ (∀ self : Attendance,
      Attendance_member_line db self
      = Returns ((Attendance_member db >=> Member_cell db
                  >=> Cell_line db) self))
  ∧ (∀ self : Attendance,
      Attendance_member_loop db self
      = Returns ((Attendance_member db >=> Member_cell db
                  >=> Cell_line db >=> Line_loop db) self))
  ∧ (∀ self : Attendance,
      Attendance_member_zone db self
      = Returns ((Attendance_member db >=> Member_cell db
                  >=> Cell_line db >=> Line_loop db >=> Loop_zone db) self))
  ∧ (∀ self : Attendance,
      Attendance_member_plant db self
      = Returns ((Attendance_member db >=> Member_cell db
                  >=> Cell_line db >=> Line_loop db >=> Loop_zone db
                  >=> Zone_plant db) self)).
Proof. repeat split; intros self; unfold hop_then; auto with hops. Qed.

(** ** Composition hop by hop *)

Ltac unfold_properties :=
  unfold via, Attendance_member_cell,
    Attendance_member_line,
    Attendance_member_loop,
    Attendance_member_plant,
    Attendance_member_user,
    Attendance_member_zone,
    Attendance_team_leader_user,
    Attendance_working_line,
    Attendance_working_loop,
    Attendance_working_plant,
    Attendance_working_zone,
    Cell_loop,
    Cell_plant,
    Cell_zone,
    Line_plant,
    Line_zone,
    Loop_plant,
    Loss_line,
    Loss_loop,
    Loss_planner,
    Loss_planner_user,
    Loss_plant,
    Loss_shift,
    Loss_team_leader,
    Loss_team_leader_user,
    Loss_zone,
    Member_line,
    Member_loop,
    Member_plant,
    Member_zone,
    Production_loop,
    Production_planner_user,
    Production_plant,
    Production_team_leader_user,
    Production_zone,
    TeamLeader_loop,
    TeamLeader_plant,
    TeamLeader_zone.

(** C10.  A flattened property is its first hop followed by the property
    of the same name one level up: [Cell.plant] is [Cell.line.plant]
    when [Cell.line] is set and [None] otherwise, [Loss.plant] is
    [Loss.production.plant], [Attendance.working_plant] is
    [Attendance.working_cell.plant], and so on for every multi-hop
    property; a two-hop property is its first hop followed by the
    relationship of the parent. *)
Theorem derived_properties_compose (db : DB) :
  (∀ self : Line,
      Line_plant db self = via (Line_loop db self) (Loop_plant db))
  ∧ (∀ self : Cell,
      Cell_zone db self = via (Cell_line db self) (Line_zone db))
  ∧ (∀ self : Cell,
      Cell_plant db self = via (Cell_line db self) (Line_plant db))
  ∧ (∀ self : TeamLeader,
      TeamLeader_zone db self = via (TeamLeader_line db self) (Line_zone db))
  ∧ (∀ self : TeamLeader,
      TeamLeader_plant db self = via (TeamLeader_line db self) (Line_plant db))
  ∧ (∀ self : Member,
      Member_loop db self = via (Member_cell db self) (Cell_loop db))
  ∧ (∀ self : Member,
      Member_zone db self = via (Member_cell db self) (Cell_zone db))
  ∧ (∀ self : Member,
      Member_plant db self = via (Member_cell db self) (Cell_plant db))
  ∧ (∀ self : Production,
      Production_zone db self = via (Production_line db self) (Line_zone db))
  ∧ (∀ self : Production,
      Production_plant db self = via (Production_line db self) (Line_plant db))
  ∧ (∀ self : Loss,
      Loss_planner_user db self
      = via (Loss_production db self) (Production_planner_user db))
  ∧ (∀ self : Loss,
      Loss_team_leader_user db self
      = via (Loss_production db self) (Production_team_leader_user db))
  ∧ (∀ self : Loss,
      Loss_loop db self = via (Loss_production db self) (Production_loop db))
  ∧ (∀ self : Loss,
      Loss_zone db self = via (Loss_production db self) (Production_zone db))
  ∧ (∀ self : Loss,
      Loss_plant db self = via (Loss_production db self) (Production_plant db))
  ∧ (∀ self : Attendance,
      Attendance_working_loop db self
      = via (Attendance_working_cell db self) (Cell_loop db))
  ∧ (∀ self : Attendance,
      Attendance_working_zone db self
      = via (Attendance_working_cell db self) (Cell_zone db))
  ∧ (∀ self : Attendance,
      Attendance_working_plant db self
      = via (Attendance_working_cell db self) (Cell_plant db))
  ∧ (∀ self : Attendance,
      Attendance_member_line db self
      = via (Attendance_member db self) (Member_line db))
  ∧ (∀ self : Attendance,
      Attendance_member_loop db self
      = via (Attendance_member db self) (Member_loop db))
  ∧ (∀ self : Attendance,
      Attendance_member_zone db self
      = via (Attendance_member db self) (Member_zone db))
  ∧ (∀ self : Attendance,
      Attendance_member_plant db self
      = via (Attendance_member db self) (Member_plant db))
  ∧ (∀ self : Loop,
      Loop_plant db self
      = via (Loop_zone db self) (λ x, Returns (Zone_plant db x)))
  ∧ (∀ self : Line,
      Line_zone db self
      = via (Line_loop db self) (λ x, Returns (Loop_zone db x)))
  ∧ (∀ self : Cell,
      Cell_loop db self
      = via (Cell_line db self) (λ x, Returns (Line_loop db x)))
  ∧ (∀ self : TeamLeader,
      TeamLeader_loop db self
      = via (TeamLeader_line db self) (λ x, Returns (Line_loop db x)))
  ∧ (∀ self : Member,
      Member_line db self
      = via (Member_cell db self) (λ x, Returns (Cell_line db x)))
  ∧ (∀ self : Production,
      Production_planner_user db self
      = via (Production_planner db self) (λ x, Returns (Planner_user db x)))
  ∧ (∀ self : Production,
      Production_team_leader_user db self
      = via (Production_team_leader db self)
          (λ x, Returns (TeamLeader_user db x)))
  ∧ (∀ self : Production,
      Production_loop db self
      = via (Production_line db self) (λ x, Returns (Line_loop db x)))
  ∧ (∀ self : Loss,
      Loss_shift db self
      = via (Loss_production db self) (λ x, Returns (Production_shift db x)))
  ∧ (∀ self : Loss,
      Loss_planner db self
      = via (Loss_production db self) (λ x, Returns (Production_planner db x)))
  ∧ (∀ self : Loss,
      Loss_team_leader db self
      = via (Loss_production db self)
          (λ x, Returns (Production_team_leader db x)))
  ∧ (∀ self : Loss,
      Loss_line db self
      = via (Loss_production db self) (λ x, Returns (Production_line db x)))
  ∧ (∀ self : Attendance,
      Attendance_member_user db self
      = via (Attendance_member db self) (λ x, Returns (Member_user db x)))
  ∧ (∀ self : Attendance,
      Attendance_team_leader_user db self
      = via (Attendance_team_leader db self)
          (λ x, Returns (TeamLeader_user db x)))
  ∧ (∀ self : Attendance,
      Attendance_working_line db self
      = via (Attendance_working_cell db self) (λ x, Returns (Cell_line db x)))
  ∧ (∀ self : Attendance,
      Attendance_member_cell db self
      = via (Attendance_member db self) (λ x, Returns (Member_cell db x))).
Proof. repeat split; intros self; unfold_properties; hops. Qed.

(** ** The plant floor, evaluated *)

Example Floor_C1_plant : Cell_plant Floor.db Floor.C1 = Returns (Some Floor.P1).
Proof. vm_compute. reflexivity. Qed.

Example Floor_A1_plants :
  Attendance_working_plant Floor.db Floor.A1 = Returns (Some Floor.P2)
  ∧ Attendance_member_plant Floor.db Floor.A1 = Returns (Some Floor.P1).
Proof. vm_compute. split; reflexivity. Qed.

Example Floor_LS1_plant :
  Loss_plant Floor.db Floor.LS1 = Returns (Some Floor.P1).
Proof. reflexivity. Qed.

(** ** Soft deletion and the raw walk *)

Lemma softDelete_is_deleted (now : Z) (m : TimestampMixin) :
  is_deleted (softDelete now m) = true.
Proof.
  unfold softDelete. destruct (is_deleted m) eqn:E; [exact E | reflexivity].
Qed.

(** A row update that keeps the foreign key keeps what lies above the row. *)

Lemma Cell_line_update_line (f : Line → Line) (k : Z) (db : DB) (c : Cell) :
  Cell_line (update_line f k db) c
  = (λ l, if decide (Cell_line_id c = Some k) then f l else l)
      <$> Cell_line db c.
Proof.
  unfold Cell_line, update_line; cbn [tbl_line].
  destruct (Cell_line_id c) as [j|]; cbn [mbind option_bind]; [|reflexivity].
  destruct (decide (j = k)) as [->|Hne].
  - rewrite lookup_alter_eq.
    destruct (decide (Some k = Some k)); [reflexivity | congruence].
  - rewrite lookup_alter_ne by congruence.
    destruct (decide (Some j = Some k)); [congruence |].
    destruct (tbl_line db !! j); reflexivity.
Qed.

Lemma Line_loop_update_loop (f : Loop → Loop) (k : Z) (db : DB) (l : Line) :
  Line_loop (update_loop f k db) l
  = (λ lo, if decide (Line_loop_id l = Some k) then f lo else lo)
      <$> Line_loop db l.
Proof.
  unfold Line_loop, update_loop; cbn [tbl_loop].
  destruct (Line_loop_id l) as [j|]; cbn [mbind option_bind]; [|reflexivity].
  destruct (decide (j = k)) as [->|Hne].
  - rewrite lookup_alter_eq.
    destruct (decide (Some k = Some k)); [reflexivity | congruence].
  - rewrite lookup_alter_ne by congruence.
    destruct (decide (Some j = Some k)); [congruence |].
    destruct (tbl_loop db !! j); reflexivity.
Qed.

Lemma Loop_zone_update_zone (f : Zone → Zone) (k : Z) (db : DB) (lo : Loop) :
  Loop_zone (update_zone f k db) lo
  = (λ z, if decide (Loop_zone_id lo = Some k) then f z else z)
      <$> Loop_zone db lo.
Proof.
  unfold Loop_zone, update_zone; cbn [tbl_zone].
  destruct (Loop_zone_id lo) as [j|]; cbn [mbind option_bind]; [|reflexivity].
  destruct (decide (j = k)) as [->|Hne].
  - rewrite lookup_alter_eq.
    destruct (decide (Some k = Some k)); [reflexivity | congruence].
  - rewrite lookup_alter_ne by congruence.
    destruct (decide (Some j = Some k)); [congruence |].
    destruct (tbl_zone db !! j); reflexivity.
Qed.

(** The row above, once soft-deleted, is the row the relationship
    returns. *)

Lemma Cell_line_softDelete_Line (db : DB) (now k : Z) (c : Cell) (l : Line) :
  Cell_line_id c = Some k → tbl_line db !! k = Some l →
  Cell_line db c = Some l
  ∧ Cell_line (softDelete_Line now k db) c = Some (Line_deleted now l).
Proof.
  intros Hk Hl.
  assert (Hline : Cell_line db c = Some l).
  { unfold Cell_line. rewrite Hk. exact Hl. }
  split; [exact Hline|].
  unfold softDelete_Line. rewrite Cell_line_update_line, Hline, Hk.
  cbn [fmap option_fmap option_map].
  destruct (decide (Some k = Some k)); [reflexivity | congruence].
Qed.

Lemma Line_loop_softDelete_Loop (db : DB) (now k : Z) (l : Line) (lo : Loop) :
  Line_loop_id l = Some k → tbl_loop db !! k = Some lo →
  Line_loop db l = Some lo
  ∧ Line_loop (softDelete_Loop now k db) l = Some (Loop_deleted now lo).
Proof.
  intros Hk Hlo.
  assert (Hloop : Line_loop db l = Some lo).
  { unfold Line_loop. rewrite Hk. exact Hlo. }
  split; [exact Hloop|].
  unfold softDelete_Loop. rewrite Line_loop_update_loop, Hloop, Hk.
  cbn [fmap option_fmap option_map].
  destruct (decide (Some k = Some k)); [reflexivity | congruence].
Qed.

Lemma Loop_zone_softDelete_Zone (db : DB) (now k : Z) (lo : Loop) (z : Zone) :
  Loop_zone_id lo = Some k → tbl_zone db !! k = Some z →
  Loop_zone db lo = Some z
  ∧ Loop_zone (softDelete_Zone now k db) lo = Some (Zone_deleted now z).
Proof.
  intros Hk Hz.
  assert (Hzone : Loop_zone db lo = Some z).
  { unfold Loop_zone. rewrite Hk. exact Hz. }
  split; [exact Hzone|].
  unfold softDelete_Zone. rewrite Loop_zone_update_zone, Hzone, Hk.
  cbn [fmap option_fmap option_map].
  destruct (decide (Some k = Some k)); [reflexivity | congruence].
Qed.

(** C2.  The raw walk does not look at the deletion mark.  Soft-delete
    the Line, the Loop or the Zone above a Cell, a Line or a Loop: the
    walk from that descendant still returns the row, now marked deleted,
    and what it returns for every level above it is what it returned
    before. *)
Theorem raw_walk_ignores_soft_delete (db : DB) (now : Z) :
  (* the Line above a Cell *)
  (∀ (c : Cell) (k : Z) (l : Line),
      Cell_line_id c = Some k → tbl_line db !! k = Some l →
      let db' := softDelete_Line now k db in
      Cell_line db' c = Some (Line_deleted now l)
      ∧ is_deleted (Line_mixin (Line_deleted now l)) = true
      ∧ Cell_loop db' c = Cell_loop db c
      ∧ Cell_zone db' c = Cell_zone db c
      ∧ Cell_plant db' c = Cell_plant db c)
  (* the Loop above a Cell *)
  ∧ (∀ (c : Cell) (l : Line) (k : Z) (lo : Loop),
      Cell_line db c = Some l →
      Line_loop_id l = Some k → tbl_loop db !! k = Some lo →
      let db' := softDelete_Loop now k db in
      Cell_loop db' c = Returns (Some (Loop_deleted now lo))
      ∧ is_deleted (Loop_mixin (Loop_deleted now lo)) = true
      ∧ Cell_zone db' c = Cell_zone db c
      ∧ Cell_plant db' c = Cell_plant db c)
  (* the Zone above a Cell *)
  ∧ (∀ (c : Cell) (l : Line) (lo : Loop) (k : Z) (z : Zone),
      Cell_line db c = Some l → Line_loop db l = Some lo →
      Loop_zone_id lo = Some k → tbl_zone db !! k = Some z →
      let db' := softDelete_Zone now k db in
      Cell_zone db' c = Returns (Some (Zone_deleted now z))
      ∧ is_deleted (Zone_mixin (Zone_deleted now z)) = true
      ∧ Cell_plant db' c = Cell_plant db c)
  (* the Loop above a Line *)
  ∧ (∀ (l : Line) (k : Z) (lo : Loop),
      Line_loop_id l = Some k → tbl_loop db !! k = Some lo →
      let db' := softDelete_Loop now k db in
      Line_loop db' l = Some (Loop_deleted now lo)
      ∧ Line_zone db' l = Line_zone db l
      ∧ Line_plant db' l = Line_plant db l)
  (* the Zone above a Line *)
  ∧ (∀ (l : Line) (lo : Loop) (k : Z) (z : Zone),
      Line_loop db l = Some lo →
      Loop_zone_id lo = Some k → tbl_zone db !! k = Some z →
      let db' := softDelete_Zone now k db in
      Line_zone db' l = Returns (Some (Zone_deleted now z))
      ∧ Line_plant db' l = Line_plant db l)
  (* the Zone above a Loop *)
  ∧ (∀ (lo : Loop) (k : Z) (z : Zone),
      Loop_zone_id lo = Some k → tbl_zone db !! k = Some z →
      let db' := softDelete_Zone now k db in
      Loop_zone db' lo = Some (Zone_deleted now z)
      ∧ Loop_plant db' lo = Loop_plant db lo).
Proof.
  repeat apply conj.
  - intros c k l Hk Hl db'.
    destruct (Cell_line_softDelete_Line db now k c l Hk Hl) as [Hline Hline'].
    split; [exact Hline'|]. split; [apply softDelete_is_deleted|].
    rewrite !Cell_loop_hops, !Cell_zone_hops, !Cell_plant_hops.
    unfold db'. rewrite Hline', Hline. repeat split; reflexivity.
  - intros c l k lo Hl Hk Hlo db'.
    destruct (Line_loop_softDelete_Loop db now k l lo Hk Hlo) as [Hloop Hloop'].
    rewrite !Cell_loop_hops, !Cell_zone_hops, !Cell_plant_hops.
    change (Cell_line db' c) with (Cell_line db c). rewrite Hl.
    cbn [mbind option_bind]. unfold db'. rewrite Hloop', Hloop.
    split; [reflexivity|]. split; [apply softDelete_is_deleted|].
    split; reflexivity.
  - intros c l lo k z Hl Hlo Hk Hz db'.
    destruct (Loop_zone_softDelete_Zone db now k lo z Hk Hz) as [Hzone Hzone'].
    rewrite !Cell_zone_hops, !Cell_plant_hops.
    change (Cell_line db' c) with (Cell_line db c). rewrite Hl.
    cbn [mbind option_bind].
    change (Line_loop db' l) with (Line_loop db l). rewrite Hlo.
    cbn [mbind option_bind]. unfold db'. rewrite Hzone', Hzone.
    split; [reflexivity|]. split; [apply softDelete_is_deleted|].
    reflexivity.
  - intros l k lo Hk Hlo db'.
    destruct (Line_loop_softDelete_Loop db now k l lo Hk Hlo) as [Hloop Hloop'].
    split; [exact Hloop'|].
    rewrite !Line_zone_hops, !Line_plant_hops.
    unfold db'. rewrite Hloop', Hloop. split; reflexivity.
  - intros l lo k z Hlo Hk Hz db'.
    destruct (Loop_zone_softDelete_Zone db now k lo z Hk Hz) as [Hzone Hzone'].
    rewrite !Line_zone_hops, !Line_plant_hops.
    change (Line_loop db' l) with (Line_loop db l). rewrite Hlo.
    cbn [mbind option_bind]. unfold db'. rewrite Hzone', Hzone.
    split; reflexivity.
  - intros lo k z Hk Hz db'.
    destruct (Loop_zone_softDelete_Zone db now k lo z Hk Hz) as [Hzone Hzone'].
    split; [exact Hzone'|].
    rewrite !Loop_plant_hops. unfold db'. rewrite Hzone', Hzone. reflexivity.
Qed.

(** On the plant floor: the Line, the Loop, the Zone above cell C1
    deleted in turn, and the Zone above loop L1. *)
Lemma raw_walk_ignores_soft_delete_witness :
  (Cell_line (softDelete_Line 7 1 Floor.db) Floor.C1
     = Some (Line_deleted 7 Floor.Ln1)
   ∧ Cell_plant (softDelete_Line 7 1 Floor.db) Floor.C1
     = Returns (Some Floor.P1))
  ∧ (Cell_loop (softDelete_Loop 7 1 Floor.db) Floor.C1
     = Returns (Some (Loop_deleted 7 Floor.L1))
   ∧ Cell_plant (softDelete_Loop 7 1 Floor.db) Floor.C1
     = Returns (Some Floor.P1))
  ∧ (Cell_zone (softDelete_Zone 7 1 Floor.db) Floor.C1
     = Returns (Some (Zone_deleted 7 Floor.Z1))
   ∧ Cell_plant (softDelete_Zone 7 1 Floor.db) Floor.C1
     = Returns (Some Floor.P1))
  ∧ (Loop_zone (softDelete_Zone 7 1 Floor.db) Floor.L1
     = Some (Zone_deleted 7 Floor.Z1)
   ∧ Loop_plant (softDelete_Zone 7 1 Floor.db) Floor.L1
     = Returns (Some Floor.P1)).
Proof.
  destruct (raw_walk_ignores_soft_delete Floor.db 7)
    as (Hl & Hlo & Hz & _ & _ & Hzlo).
  destruct (Hl Floor.C1 1 Floor.Ln1 eq_refl eq_refl) as (Hl1 & _ & _ & _ & Hl2).
  destruct (Hlo Floor.C1 Floor.Ln1 1 Floor.L1 eq_refl eq_refl eq_refl)
    as (Hlo1 & _ & _ & Hlo2).
  destruct (Hz Floor.C1 Floor.Ln1 Floor.L1 1 Floor.Z1
              eq_refl eq_refl eq_refl eq_refl) as (Hz1 & _ & Hz2).
  destruct (Hzlo Floor.L1 1 Floor.Z1 eq_refl eq_refl) as (Hzlo1 & Hzlo2).
  repeat apply conj; assumption.
Defined.

(** ** The live walk against the raw walk *)

(** C3, as the source has it.  On a chain whose references all resolve,
    [Cell.plant], the one walk from a Cell to its Plant in the source,
    returns the Plant whatever the deletion marks say.  The live walk of
    the spec returns that same Plant when no row on the chain is marked
    deleted, and is unresolved when one is. *)
Theorem live_walk_refines_raw_walk
    (db : DB) (c : Cell) (l : Line) (lo : Loop) (z : Zone) (p : Plant) :
  Cell_line db c = Some l → Line_loop db l = Some lo →
  Loop_zone db lo = Some z → Zone_plant db z = Some p →
  Cell_plant db c = Returns (Some p)
  ∧ (is_deleted (Line_mixin l) = false → is_deleted (Loop_mixin lo) = false →
     is_deleted (Zone_mixin z) = false → is_deleted (Plant_mixin p) = false →
     Returns (spec_live_Cell_plant db c) = Cell_plant db c)
  ∧ (is_deleted (Line_mixin l) = true ∨ is_deleted (Loop_mixin lo) = true
     ∨ is_deleted (Zone_mixin z) = true ∨ is_deleted (Plant_mixin p) = true →
     spec_live_Cell_plant db c = None).
Proof.
  intros Hl Hlo Hz Hp.
  assert (Hraw : Cell_plant db c = Returns (Some p)).
  { rewrite Cell_plant_hops, Hl; cbn [mbind option_bind].
    rewrite Hlo; cbn [mbind option_bind]. rewrite Hz; cbn [mbind option_bind].
    rewrite Hp. reflexivity. }
  split; [exact Hraw|]. unfold spec_live_Cell_plant, live.
  rewrite Hraw, Hl; cbn [mbind option_bind].
  split.
  - intros Dl Dlo Dz Dp. rewrite Dl; cbn [mbind option_bind].
    rewrite Hlo; cbn [mbind option_bind]. rewrite Dlo; cbn [mbind option_bind].
    rewrite Hz; cbn [mbind option_bind]. rewrite Dz; cbn [mbind option_bind].
    rewrite Hp; cbn [mbind option_bind]. rewrite Dp. reflexivity.
  - destruct (is_deleted (Line_mixin l)); cbn [mbind option_bind];
      [reflexivity|].
    rewrite Hlo; cbn [mbind option_bind].
    destruct (is_deleted (Loop_mixin lo)); cbn [mbind option_bind];
      [reflexivity|].
    rewrite Hz; cbn [mbind option_bind].
    destruct (is_deleted (Zone_mixin z)); cbn [mbind option_bind];
      [reflexivity|].
    rewrite Hp; cbn [mbind option_bind].
    destruct (is_deleted (Plant_mixin p)); [reflexivity|].
    intros [?|[?|[?|?]]]; discriminate.
Qed.

(** On the plant floor nothing is deleted: both walks from cell C1 reach
    plant P1. *)
Lemma live_walk_refines_raw_walk_witness :
  Cell_plant Floor.db Floor.C1 = Returns (Some Floor.P1)
  ∧ Returns (spec_live_Cell_plant Floor.db Floor.C1)
    = Cell_plant Floor.db Floor.C1.
Proof.
  destruct (live_walk_refines_raw_walk Floor.db Floor.C1 Floor.Ln1 Floor.L1
              Floor.Z1 Floor.P1 eq_refl eq_refl eq_refl eq_refl)
    as (Hraw & Hlive & _).
  split; [exact Hraw|].
  exact (Hlive eq_refl eq_refl eq_refl eq_refl).
Defined.

(** The source has no live walk: with the Loop above the Cell marked
    deleted, [Cell.plant] still returns the Plant, where a live walk is
    unresolved. *)
Lemma Cell_plant_is_not_live :
  Cell_plant (softDelete_Loop 7 1 Floor.db) Floor.C1 = Returns (Some Floor.P1)
  ∧ spec_live_Cell_plant (softDelete_Loop 7 1 Floor.db) Floor.C1 = None
  ∧ ¬ (∀ (db : DB) (c : Cell),
          Cell_plant db c = Returns (spec_live_Cell_plant db c)).
Proof.
  assert (H1 : Cell_plant (softDelete_Loop 7 1 Floor.db) Floor.C1
               = Returns (Some Floor.P1)) by reflexivity.
  assert (H2 : spec_live_Cell_plant (softDelete_Loop 7 1 Floor.db) Floor.C1
               = None) by reflexivity.
  split; [exact H1|]. split; [exact H2|].
  intros H. specialize (H (softDelete_Loop 7 1 Floor.db) Floor.C1).
  rewrite H1, H2 in H. discriminate.
Qed.

(** ** The two chains of an Attendance *)

Ltac unfold_relationships :=
  unfold Attendance_working_cell, Attendance_member, Member_cell, Cell_line,
    Line_loop, Loop_zone, Zone_plant;
  cbn [tbl_plant tbl_zone tbl_loop tbl_line tbl_cell tbl_member].

(** C5.  The working-location properties of an Attendance read the
    working cell and the hierarchy above it and nothing else: change the
    member reference, or the whole member table, and they return the
    same.  The assigned-location properties read the member, the
    member's home cell and the hierarchy above it: change the working
    cell reference and they return the same.  Neither falls back on the
    other when its own first link is missing, and when the two cells
    resolve to two Plants those are the two Plants returned. *)
Theorem attendance_chains_never_cross (db db' : DB) (a a' : Attendance) :
  same_hierarchy db db' →
  (Attendance_working_cell_id a = Attendance_working_cell_id a' →
     Attendance_working_line db a = Attendance_working_line db' a'
     ∧ Attendance_working_loop db a = Attendance_working_loop db' a'
     ∧ Attendance_working_zone db a = Attendance_working_zone db' a'
     ∧ Attendance_working_plant db a = Attendance_working_plant db' a')
  ∧ (Attendance_member_id a = Attendance_member_id a' →
     tbl_member db = tbl_member db' →
     Attendance_member_cell db a = Attendance_member_cell db' a'
     ∧ Attendance_member_line db a = Attendance_member_line db' a'
     ∧ Attendance_member_loop db a = Attendance_member_loop db' a'
     ∧ Attendance_member_zone db a = Attendance_member_zone db' a'
     ∧ Attendance_member_plant db a = Attendance_member_plant db' a')
  ∧ (Attendance_working_cell db a = None →
     Attendance_working_plant db a = Returns None)
  ∧ (Attendance_member db a = None →
     Attendance_member_plant db a = Returns None)
  ∧ (∀ (wc : Cell) (m : Member) (hc : Cell) (p1 p2 : Plant),
       Attendance_working_cell db a = Some wc →
       Attendance_member db a = Some m → Member_cell db m = Some hc →
       Cell_plant db wc = Returns (Some p2) →
       Cell_plant db hc = Returns (Some p1) →
       Attendance_working_plant db a = Returns (Some p2)
       ∧ Attendance_member_plant db a = Returns (Some p1)
       ∧ (p1 ≠ p2 →
          Attendance_working_plant db a ≠ Attendance_member_plant db a)).
Proof.
  intros (Hp & Hz & Hlo & Hl & Hc).
  split; [|split; [|split; [|split]]].
  - intros Hid.
    rewrite !Attendance_working_line_hops, !Attendance_working_loop_hops,
      !Attendance_working_zone_hops, !Attendance_working_plant_hops.
    destruct db, db'; cbn in Hp, Hz, Hlo, Hl, Hc; subst.
    unfold_relationships. rewrite Hid. repeat split; reflexivity.
  - intros Hid Hm.
    rewrite !Attendance_member_cell_hops, !Attendance_member_line_hops,
      !Attendance_member_loop_hops, !Attendance_member_zone_hops,
      !Attendance_member_plant_hops.
    destruct db, db'; cbn in Hp, Hz, Hlo, Hl, Hc, Hm; subst.
    unfold_relationships. rewrite Hid. repeat split; reflexivity.
  - intros Hw. rewrite Attendance_working_plant_hops, Hw. reflexivity.
  - intros Hm. rewrite Attendance_member_plant_hops, Hm. reflexivity.
  - intros wc m hc p1 p2 Hw Hm Hh Hp2 Hp1.
    rewrite Cell_plant_hops in Hp2, Hp1.
    assert (Hwp : Attendance_working_plant db a = Returns (Some p2)).
    { rewrite Attendance_working_plant_hops, Hw. exact Hp2. }
    assert (Hmp : Attendance_member_plant db a = Returns (Some p1)).
    { rewrite Attendance_member_plant_hops, Hm; cbn [mbind option_bind].
      rewrite Hh. exact Hp1. }
    split; [exact Hwp|]. split; [exact Hmp|].
    rewrite Hwp, Hmp. intros Hne Heq. apply Hne. congruence.
Qed.

(** Attendance A1 was worked in cell C2 of plant P2 by a member at home
    in cell C1 of plant P1; with the personnel tables emptied and the
    member unknown the working plant is the same. *)
Lemma attendance_chains_never_cross_witness :
  Attendance_working_plant Floor.db Floor.A1
  = Attendance_working_plant Floor.db_unstaffed Floor.A2
  ∧ Attendance_working_plant Floor.db Floor.A1 = Returns (Some Floor.P2)
  ∧ Attendance_member_plant Floor.db Floor.A1 = Returns (Some Floor.P1)
  ∧ Attendance_working_plant Floor.db Floor.A1
    ≠ Attendance_member_plant Floor.db Floor.A1.
Proof.
  destruct (attendance_chains_never_cross Floor.db Floor.db_unstaffed
              Floor.A1 Floor.A2) as (Hw & _ & _ & _ & Hboth).
  { repeat split. }
  destruct (Hw eq_refl) as (_ & _ & _ & Hwp).
  destruct (Hboth Floor.C2 Floor.M1 Floor.C1 Floor.P1 Floor.P2
              eq_refl eq_refl eq_refl eq_refl eq_refl) as (H2 & H1 & Hne).
  split; [exact Hwp|]. split; [exact H2|]. split; [exact H1|].
  apply Hne. unfold Floor.P1, Floor.P2. congruence.
Defined.

(** ** Reparenting *)



(** ** Where a walk stops *)



(** ** The audit columns under writes *)

Lemma flush_disciplined_audit_ok (now : Z) (w : write) (m : TimestampMixin) :
  disciplined w = true → audit_ok m → audit_ok (flush now w m).
Proof.
  unfold audit_ok. intros Hw Hm.
  destruct w; try discriminate Hw; cbn [flush is_deleted deleted_at];
    try exact Hm.
  unfold softDelete. destruct (is_deleted m) eqn:E.
  - rewrite E. exact Hm.
  - cbn. split; [discriminate | reflexivity].
Qed.

Lemma run_disciplined_audit_ok (ws : list (Z * write)) :
  ∀ m : TimestampMixin,
    Forall (λ nw, disciplined nw.2 = true) ws → audit_ok m →
    audit_ok (run ws m).
Proof.
  induction ws as [|[now w] ws IH]; intros m Hws Hm; [exact Hm|].
  inversion Hws as [|? ? Hw Hrest]; subst. cbn [run].
  apply IH; [exact Hrest|]. apply flush_disciplined_audit_ok; assumption.
Qed.

(** C4, as the source has it.  An entity created with the column
    defaults has [is_deleted] false and [deleted_at] NULL, and the
    invariant then survives every history of writes in which those two
    columns are written by [softDelete] alone.  The source itself ties
    the two columns to nothing. *)
Theorem audit_invariant_without_raw_writes
    (now : Z) (kw : mixin_kwargs) (ws : list (Z * write)) :
  kw_deleted_at kw = None → kw_is_deleted kw = None →
  Forall (λ nw, disciplined nw.2 = true) ws →
  audit_ok (run ws (TimestampMixin_init now kw)).
Proof.
  intros Hd Hi Hws. apply run_disciplined_audit_ok; [exact Hws|].
  unfold audit_ok, TimestampMixin_init; cbn. rewrite Hd, Hi. cbn.
  split; [discriminate | congruence].
Qed.

(** A history with an update, a soft delete, a touch and a second soft
    delete. *)
Lemma audit_invariant_without_raw_writes_witness :
  audit_ok (run [(3, Assign_own); (5, SoftDelete); (8, Assign_updated_at 8);
                 (9, SoftDelete)]
              (TimestampMixin_init 0 no_kwargs)).
Proof.
  apply (audit_invariant_without_raw_writes 0 no_kwargs);
    [reflexivity | reflexivity |].
  repeat constructor.
Defined.

(** The columns are independent: the constructor and a plain assignment
    each produce a row that is marked deleted without a deletion time,
    or carries a deletion time without the mark. *)
Lemma audit_invariant_broken_by_raw_write :
  ¬ audit_ok (TimestampMixin_init 0
                (mk_mixin_kwargs None None None (Some true)))
  ∧ ¬ audit_ok (run [(1, Assign_is_deleted true)]
                  (TimestampMixin_init 0 no_kwargs))
  ∧ ¬ audit_ok (run [(1, Assign_deleted_at (Some 1))]
                  (TimestampMixin_init 0 no_kwargs)).
Proof.
  unfold audit_ok; cbn. repeat split; intros [H1 H2].
  - apply H1; reflexivity.
  - apply H1; reflexivity.
  - discriminate H2. discriminate.
Qed.

Lemma run_disciplined_deleted (ws : list (Z * write)) :
  ∀ m : TimestampMixin,
    Forall (λ nw, disciplined nw.2 = true) ws → is_deleted m = true →
    is_deleted (run ws m) = true ∧ deleted_at (run ws m) = deleted_at m.
Proof.
  induction ws as [|[now w] ws IH]; intros m Hws Hm;
    [split; [exact Hm | reflexivity]|].
  inversion Hws as [|? ? Hw Hrest]; subst. cbn [run].
  assert (Hstep : is_deleted (flush now w m) = true
                  ∧ deleted_at (flush now w m) = deleted_at m).
  { destruct w; try discriminate Hw; cbn [flush is_deleted deleted_at];
      try (split; [exact Hm | reflexivity]).
    unfold softDelete. rewrite Hm. split; [exact Hm | reflexivity]. }
  destruct Hstep as [Hdel Hat].
  destruct (IH _ Hrest Hdel) as [IH1 IH2].
  split; [exact IH1 | congruence].
Qed.

(** C7, as the source has it.  [softDelete] marks the entity and stamps
    [deleted_at]; from then on, in every history of writes that leaves
    the two columns to [softDelete], the mark stays and the stamp is the
    first one, a further [softDelete] changing nothing.  A plain
    assignment to either column is not held back by anything in the
    source. *)
Theorem soft_deletion_permanent_without_raw_writes
    (now : Z) (m : TimestampMixin) (ws : list (Z * write)) :
  Forall (λ nw, disciplined nw.2 = true) ws →
  is_deleted (flush now SoftDelete m) = true
  ∧ (is_deleted m = false → deleted_at (flush now SoftDelete m) = Some now)
  ∧ is_deleted (run ws (flush now SoftDelete m)) = true
  ∧ deleted_at (run ws (flush now SoftDelete m))
    = deleted_at (flush now SoftDelete m)
  ∧ (∀ now' : Z,
       flush now' SoftDelete (flush now SoftDelete m) = flush now SoftDelete m).
Proof.
  intros Hws. cbn [flush].
  pose proof (softDelete_is_deleted now m) as Hdel.
  split; [exact Hdel|]. split.
  { intros Hm. unfold softDelete. rewrite Hm. reflexivity. }
  destruct (run_disciplined_deleted ws _ Hws Hdel) as [H1 H2].
  split; [exact H1|]. split; [exact H2|].
  intros now'. unfold softDelete at 1. rewrite Hdel. reflexivity.
Qed.

(** Deleted at 5, updated at 6, deleted again at 7: the stamp is 5. *)
Lemma soft_deletion_permanent_without_raw_writes_witness :
  deleted_at (run [(6, Assign_own); (7, SoftDelete)]
                (flush 5 SoftDelete (TimestampMixin_init 0 no_kwargs)))
  = Some 5.
Proof.
  destruct (soft_deletion_permanent_without_raw_writes 5
              (TimestampMixin_init 0 no_kwargs)
              [(6, Assign_own); (7, SoftDelete)]) as (_ & Hat & _ & Hkeep & _).
  { repeat constructor. }
  exact (eq_trans Hkeep (Hat eq_refl)).
Defined.

(** An entity marked deleted is live again after one assignment, and its
    deletion time is gone after another. *)
Lemma soft_deletion_undone_by_raw_write :
  is_deleted (run [(1, Assign_is_deleted true)]
                (TimestampMixin_init 0 no_kwargs)) = true
  ∧ is_deleted (run [(1, Assign_is_deleted true); (2, Assign_is_deleted false)]
                  (TimestampMixin_init 0 no_kwargs)) = false
  ∧ deleted_at (run [(1, SoftDelete)] (TimestampMixin_init 0 no_kwargs))
    = Some 1
  ∧ deleted_at (run [(1, SoftDelete); (2, Assign_deleted_at None)]
                  (TimestampMixin_init 0 no_kwargs)) = None
  ∧ ¬ (∀ (ws : list (Z * write)) (m : TimestampMixin),
         is_deleted m = true → is_deleted (run ws m) = true).
Proof.
  repeat (split; [reflexivity|]).
  intros H.
  specialize (H [(2, Assign_is_deleted false)]
                (run [(1, Assign_is_deleted true)]
                   (TimestampMixin_init 0 no_kwargs)) eq_refl).
  discriminate H.
Qed.

(** ** Creation *)



(** * Further properties of the models *)

(** ** Enumerations *)

Lemma by_value_Some {E} (value : E → string) (members : list E)
    (s : string) (m : E) :
  by_value value members s = Some m → value m = s ∧ In m members.
Proof.
  unfold by_value. intros H. apply find_some in H as [Hin Heq].
  split; [apply String.eqb_eq; exact Heq | exact Hin].
Qed.

Lemma by_value_None {E} (value : E → string) (members : list E) (s : string) :
  (∀ m, In m members) →
  by_value value members s = None ↔ ∀ m, value m ≠ s.
Proof.
  unfold by_value. intros Hall. split.
  - intros H m Heq.
    pose proof (find_none _ _ H m (Hall m)) as Hm. cbn in Hm.
    apply String.eqb_eq in Heq. congruence.
  - intros H. destruct (List.find _ members) as [m|] eqn:E'; [|reflexivity].
    apply find_some in E' as [_ Heq]. apply String.eqb_eq in Heq.
    destruct (H m Heq).
Qed.

(** X1.  In each of the four enumerations the values are pairwise
    distinct, so no member is an alias of another: looking a value up
    gives back exactly the member that has it, and a string that is the
    value of no member is refused. *)
Theorem enum_lookup_by_value :
  (∀ s r, UserRole_of_value s = Some r ↔ UserRole_value r = s)
  ∧ (∀ s d, DayNight_of_value s = Some d ↔ DayNight_value d = s)
  ∧ (∀ s t, ShiftType_of_value s = Some t ↔ ShiftType_value t = s)
  ∧ (∀ s h, Hour_of_value s = Some h ↔ Hour_value h = s)
  ∧ (∀ s, UserRole_of_value s = None ↔ ∀ r, UserRole_value r ≠ s)
  ∧ (∀ s, DayNight_of_value s = None ↔ ∀ d, DayNight_value d ≠ s)
  ∧ (∀ s, ShiftType_of_value s = None ↔ ∀ t, ShiftType_value t ≠ s)
  ∧ (∀ s, Hour_of_value s = None ↔ ∀ h, Hour_value h ≠ s).
Proof.
  repeat apply conj.
  1-4: intros s m; (split;
         [intros H; apply by_value_Some in H as [H _]; exact H
         |intros <-; destruct m; reflexivity]).
  all: intros s; apply by_value_None; intros m; destruct m; cbn; tauto.
Qed.

(** X2.  The name of a member is its value for [UserRole] and
    [DayNight]; for [ShiftType] and [Hour] the value is the name with
    the underscore turned into a hyphen, and there the name is the value
    of no member: a lookup by value refuses it. *)
Theorem enum_names_and_values :
  (∀ r, UserRole_value r = UserRole_name r)
  ∧ (∀ d, DayNight_value d = DayNight_name d)
  ∧ (∀ t, ShiftType_value t = hyphenated (ShiftType_name t))
  ∧ (∀ h, Hour_value h = hyphenated (Hour_name h))
  ∧ (∀ r, UserRole_of_value (UserRole_name r) = Some r)
  ∧ (∀ d, DayNight_of_value (DayNight_name d) = Some d)
  ∧ (∀ t, ShiftType_of_value (ShiftType_name t) = None)
  ∧ (∀ h, Hour_of_value (Hour_name h) = None).
Proof. repeat apply conj; intros m; destruct m; reflexivity. Qed.

(** ** Both sides of a relationship *)

Lemma one_to_many_lookup {K V P : Type} `{Countable K} `{EqDecision P}
    (fk : V → option P) (parent : P) (tbl : gmap K V) (k : K) :
  one_to_many fk parent tbl !! k
  = tbl !! k ≫= λ c, if decide (fk c = Some parent) then Some c else None.
Proof.
  unfold one_to_many. rewrite map_lookup_filter.
  destruct (tbl !! k) as [c|]; cbn; [|reflexivity].
  case_guard; destruct (decide (fk c = Some parent)); cbn in *;
    congruence.
Qed.

Lemma one_to_many_Some {K V P : Type} `{Countable K} `{EqDecision P}
    (fk : V → option P) (parent : P) (tbl : gmap K V) (k : K) (c : V) :
  one_to_many fk parent tbl !! k = Some c
  ↔ tbl !! k = Some c ∧ fk c = Some parent.
Proof. unfold one_to_many. rewrite map_lookup_filter_Some. reflexivity. Qed.

Lemma one_to_many_back {K V KP VP : Type} `{Countable K} `{Countable KP}
    (fk : V → option KP) (pk : VP → KP) (ptbl : gmap KP VP) (tbl : gmap K V)
    (p : VP) (k : K) (c : V) :
  keyed pk ptbl → ptbl !! pk p = Some p →
  one_to_many fk (pk p) tbl !! k = Some c
  ↔ tbl !! k = Some c ∧ (fk c ≫= λ j, ptbl !! j) = Some p.
Proof.
  intros Hkeyed Hp. rewrite one_to_many_Some.
  split; intros [Hc Hfk]; (split; [exact Hc|]).
  - rewrite Hfk. exact Hp.
  - destruct (fk c) as [j|]; [|discriminate]. cbn in Hfk.
    rewrite (Hkeyed j p Hfk). reflexivity.
Qed.

Lemma one_to_many_alter {K V P : Type} `{Countable K} `{EqDecision P}
    (fk : V → option P) (parent : P) (f : V → V) (k : K) (tbl : gmap K V) :
  (∀ v, fk (f v) = fk v) →
  one_to_many fk parent (alter f k tbl) = alter f k (one_to_many fk parent tbl).
Proof.
  intros Hf. apply map_eq. intros j.
  rewrite one_to_many_lookup, !lookup_alter, !one_to_many_lookup.
  destruct (decide (k = j)) as [->|Hne]; [|reflexivity].
  destruct (tbl !! j) as [c|]; cbn; [|reflexivity].
  rewrite Hf. destruct (decide (fk c = Some parent)); reflexivity.
Qed.

Ltac both_sides :=
  intros; unfold Plant_zones, Plant_plant_admins, Plant_planners, Plant_shifts,
    Zone_loops, Loop_lines, Line_cells, Line_team_leaders, Line_productions,
    Cell_members, Cell_working_members, Planner_shifts, Planner_productions,
    TeamLeader_productions, TeamLeader_attendances, Member_attendances,
    Shift_productions, Shift_attendances, Production_losses,
    LossReason_losses, AttendanceType_attendances;
  apply one_to_many_back; assumption.

(** X3.  In a store whose rows sit under their own primary key, the two
    sides of every one-to-many relationship agree: a row is in the
    collection of a stored parent exactly when it is a row of the child
    table whose many-to-one relationship returns that parent. *)
Theorem collections_mirror_parents (db : DB) :
  well_keyed db →
  (∀ (p : Plant) k (z : Zone), tbl_plant db !! Plant_id p = Some p →
     Plant_zones db p !! k = Some z
     ↔ tbl_zone db !! k = Some z ∧ Zone_plant db z = Some p)
  ∧ (∀ (p : Plant) k (a : PlantAdmin), tbl_plant db !! Plant_id p = Some p →
     Plant_plant_admins db p !! k = Some a
     ↔ tbl_plant_admin db !! k = Some a ∧ PlantAdmin_plant db a = Some p)
  ∧ (∀ (p : Plant) k (pl : Planner), tbl_plant db !! Plant_id p = Some p →
     Plant_planners db p !! k = Some pl
     ↔ tbl_planner db !! k = Some pl ∧ Planner_plant db pl = Some p)
  ∧ (∀ (p : Plant) k (s : Shift), tbl_plant db !! Plant_id p = Some p →
     Plant_shifts db p !! k = Some s
     ↔ tbl_shift db !! k = Some s ∧ Shift_plant db s = Some p)
  ∧ (∀ (z : Zone) k (lo : Loop), tbl_zone db !! Zone_id z = Some z →
     Zone_loops db z !! k = Some lo
     ↔ tbl_loop db !! k = Some lo ∧ Loop_zone db lo = Some z)
  ∧ (∀ (lo : Loop) k (l : Line), tbl_loop db !! Loop_id lo = Some lo →
     Loop_lines db lo !! k = Some l
     ↔ tbl_line db !! k = Some l ∧ Line_loop db l = Some lo)
  ∧ (∀ (l : Line) k (c : Cell), tbl_line db !! Line_id l = Some l →
     Line_cells db l !! k = Some c
     ↔ tbl_cell db !! k = Some c ∧ Cell_line db c = Some l)
  ∧ (∀ (l : Line) k (t : TeamLeader), tbl_line db !! Line_id l = Some l →
     Line_team_leaders db l !! k = Some t
     ↔ tbl_team_leader db !! k = Some t ∧ TeamLeader_line db t = Some l)
  ∧ (∀ (l : Line) k (pr : Production), tbl_line db !! Line_id l = Some l →
     Line_productions db l !! k = Some pr
     ↔ tbl_production db !! k = Some pr ∧ Production_line db pr = Some l)
  ∧ (∀ (c : Cell) k (m : Member), tbl_cell db !! Cell_id c = Some c →
     Cell_members db c !! k = Some m
     ↔ tbl_member db !! k = Some m ∧ Member_cell db m = Some c)
  ∧ (∀ (c : Cell) k (a : Attendance), tbl_cell db !! Cell_id c = Some c →
     Cell_working_members db c !! k = Some a
     ↔ tbl_attendance db !! k = Some a
       ∧ Attendance_working_cell db a = Some c)
  ∧ (∀ (pl : Planner) k (s : Shift),
     tbl_planner db !! Planner_user_id pl = Some pl →
     Planner_shifts db pl !! k = Some s
     ↔ tbl_shift db !! k = Some s ∧ Shift_planner db s = Some pl)
  ∧ (∀ (pl : Planner) k (pr : Production),
     tbl_planner db !! Planner_user_id pl = Some pl →
     Planner_productions db pl !! k = Some pr
     ↔ tbl_production db !! k = Some pr ∧ Production_planner db pr = Some pl)
  ∧ (∀ (t : TeamLeader) k (pr : Production),
     tbl_team_leader db !! TeamLeader_user_id t = Some t →
     TeamLeader_productions db t !! k = Some pr
     ↔ tbl_production db !! k = Some pr
       ∧ Production_team_leader db pr = Some t)
  ∧ (∀ (t : TeamLeader) k (a : Attendance),
     tbl_team_leader db !! TeamLeader_user_id t = Some t →
     TeamLeader_attendances db t !! k = Some a
     ↔ tbl_attendance db !! k = Some a
       ∧ Attendance_team_leader db a = Some t)
  ∧ (∀ (m : Member) k (a : Attendance),
     tbl_member db !! Member_user_id m = Some m →
     Member_attendances db m !! k = Some a
     ↔ tbl_attendance db !! k = Some a ∧ Attendance_member db a = Some m)
  ∧ (∀ (s : Shift) k (pr : Production), tbl_shift db !! Shift_id s = Some s →
     Shift_productions db s !! k = Some pr
     ↔ tbl_production db !! k = Some pr ∧ Production_shift db pr = Some s)
  ∧ (∀ (s : Shift) k (a : Attendance), tbl_shift db !! Shift_id s = Some s →
     Shift_attendances db s !! k = Some a
     ↔ tbl_attendance db !! k = Some a ∧ Attendance_shift db a = Some s)
  ∧ (∀ (pr : Production) k (ls : Loss),
     tbl_production db !! Production_id pr = Some pr →
     Production_losses db pr !! k = Some ls
     ↔ tbl_loss db !! k = Some ls ∧ Loss_production db ls = Some pr)
  ∧ (∀ (r : LossReason) k (ls : Loss),
     tbl_loss_reason db !! LossReason_id r = Some r →
     LossReason_losses db r !! k = Some ls
     ↔ tbl_loss db !! k = Some ls ∧ Loss_loss_reason db ls = Some r)
  ∧ (∀ (t : AttendanceType) k (a : Attendance),
     tbl_attendance_type db !! AttendanceType_id t = Some t →
     AttendanceType_attendances db t !! k = Some a
     ↔ tbl_attendance db !! k = Some a
       ∧ Attendance_attendance_type db a = Some t).
Proof.
  intros (? & ? & ? & ? & ? & ? & ? & ? & ? & ? & ? & ? & ? & ? & ? & ? & ?).
  repeat apply conj; both_sides.
Qed.

Lemma Floor_well_keyed : well_keyed Floor.db.
Proof.
  unfold well_keyed, keyed.
  repeat apply conj; apply (bool_decide_unpack _); vm_compute; exact I.
Qed.

(** On the plant floor: zone Z1 is the one zone of plant P1, and
    attendance A1 is listed under the cell it was worked in. *)
Lemma collections_mirror_parents_witness :
  Plant_zones Floor.db Floor.P1 !! 1 = Some Floor.Z1
  ∧ Cell_working_members Floor.db Floor.C2 !! 1 = Some Floor.A1.
Proof.
  destruct (collections_mirror_parents Floor.db Floor_well_keyed)
    as (Hz & _ & _ & _ & _ & _ & _ & _ & _ & _ & Hw & _).
  split.
  - apply (Hz Floor.P1 1 Floor.Z1 eq_refl). split; reflexivity.
  - apply (Hw Floor.C2 1 Floor.A1 eq_refl). split; reflexivity.
Defined.

Lemma one_to_one_back {K VC VP : Type} `{Countable K}
    (cpk : VC → K) (ppk : VP → K) (ctbl : gmap K VC) (ptbl : gmap K VP)
    (p : VP) (c : VC) :
  keyed cpk ctbl → keyed ppk ptbl → ptbl !! ppk p = Some p →
  ctbl !! ppk p = Some c ↔ ctbl !! cpk c = Some c ∧ ptbl !! cpk c = Some p.
Proof.
  intros Hc Hp Hstored. split.
  - intros Hlook. rewrite (Hc _ _ Hlook). split; assumption.
  - intros [Hlook Hback]. rewrite (Hp _ _ Hback). exact Hlook.
Qed.

(** X4.  In a store whose rows sit under their own primary key, the
    one-to-one relationships agree too: [user.admin], [user.plant_admin],
    [user.planner], [user.team_leader] and [user.member] return a row
    exactly when that row is stored and its [user] is this user. *)
Theorem specializations_mirror_users (db : DB) (u : User) :
  well_keyed db → tbl_user db !! User_sap_id u = Some u →
  (∀ a : Admin,
     User_admin db u = Some a
     ↔ tbl_admin db !! Admin_user_id a = Some a ∧ Admin_user db a = Some u)
  ∧ (∀ a : PlantAdmin,
     User_plant_admin db u = Some a
     ↔ tbl_plant_admin db !! PlantAdmin_user_id a = Some a
       ∧ PlantAdmin_user db a = Some u)
  ∧ (∀ pl : Planner,
     User_planner db u = Some pl
     ↔ tbl_planner db !! Planner_user_id pl = Some pl
       ∧ Planner_user db pl = Some u)
  ∧ (∀ t : TeamLeader,
     User_team_leader db u = Some t
     ↔ tbl_team_leader db !! TeamLeader_user_id t = Some t
       ∧ TeamLeader_user db t = Some u)
  ∧ (∀ m : Member,
     User_member db u = Some m
     ↔ tbl_member db !! Member_user_id m = Some m ∧ Member_user db m = Some u).
Proof.
  intros (? & ? & ? & ? & ? & ? & ? & ? & ? & ? & ? & ? & ? & ? & ? & ? & ?) Hu.
  repeat apply conj; intros x;
    unfold User_admin, User_plant_admin, User_planner, User_team_leader,
      User_member, Admin_user, PlantAdmin_user, Planner_user, TeamLeader_user,
      Member_user;
    apply one_to_one_back; assumption.
Qed.

(** User "m1" of the plant floor is a member and nothing else. *)
Lemma specializations_mirror_users_witness :
  User_member Floor.db Floor.U1 = Some Floor.M1
  ∧ Member_user Floor.db Floor.M1 = Some Floor.U1.
Proof.
  destruct (specializations_mirror_users Floor.db Floor.U1 Floor_well_keyed
              eq_refl) as (_ & _ & _ & _ & Hm).
  assert (Hfwd : User_member Floor.db Floor.U1 = Some Floor.M1) by reflexivity.
  split; [exact Hfwd|]. exact (proj2 (proj1 (Hm Floor.M1) Hfwd)).
Defined.

(** ** Collections under writes *)



(** X6.  A write to the mixin columns of a row, the deletion mark
    included, takes it out of no collection and puts it into none: the
    collection of every parent holds the same keys, with the written row
    in place of the old one.  The same write on a parent leaves its own
    collection as it was: nothing cascades. *)
Theorem mixin_writes_keep_collections (db : DB) (now : Z) (w : write) (k : Z) :
  (∀ p : Plant,
     Plant_zones (update_zone (Zone_flush now w) k db) p
     = alter (Zone_flush now w) k (Plant_zones db p))
  ∧ (∀ z : Zone,
     Zone_loops (update_loop (Loop_flush now w) k db) z
     = alter (Loop_flush now w) k (Zone_loops db z))
  ∧ (∀ lo : Loop,
     Loop_lines (update_line (Line_flush now w) k db) lo
     = alter (Line_flush now w) k (Loop_lines db lo))
  ∧ (∀ l : Line,
     Line_cells (update_cell (Cell_flush now w) k db) l
     = alter (Cell_flush now w) k (Line_cells db l))
  ∧ (∀ p : Plant,
     dom (Plant_zones (update_zone (Zone_flush now w) k db) p)
     = dom (Plant_zones db p))
  ∧ (∀ p : Plant,
     Plant_zones (update_plant (Plant_flush now w) k db) (Plant_flush now w p)
     = Plant_zones db p)
  ∧ (∀ z : Zone,
     Zone_loops (update_zone (Zone_flush now w) k db) (Zone_flush now w z)
     = Zone_loops db z)
  ∧ (∀ lo : Loop,
     Loop_lines (update_loop (Loop_flush now w) k db) (Loop_flush now w lo)
     = Loop_lines db lo)
  ∧ (∀ l : Line,
     Line_cells (update_line (Line_flush now w) k db) (Line_flush now w l)
     = Line_cells db l).
Proof.
  assert (Hz : ∀ p : Plant,
     Plant_zones (update_zone (Zone_flush now w) k db) p
     = alter (Zone_flush now w) k (Plant_zones db p)).
  { intros p. unfold Plant_zones, update_zone; cbn [tbl_zone].
    apply one_to_many_alter. reflexivity. }
  repeat apply conj; try reflexivity; try exact Hz.
  - intros z. unfold Zone_loops, update_loop; cbn [tbl_loop].
    apply one_to_many_alter. reflexivity.
  - intros lo. unfold Loop_lines, update_line; cbn [tbl_line].
    apply one_to_many_alter. reflexivity.
  - intros l. unfold Line_cells, update_cell; cbn [tbl_cell].
    apply one_to_many_alter. reflexivity.
  - intros p. rewrite Hz. apply dom_alter_L.
Qed.

(** ** The levels of one walk *)

Ltac levels :=
  intros self; unfold_properties;
  repeat (cbn [and_then getattr if_else py_and this truthy ref_truthy
               bool_truthy mbind option_bind];
          try reflexivity;
          match goal with
          | |- context [match ?o with Some _ => _ | None => _ end] =>
              destruct o eqn:?
          end).

(** X7.  The properties of one entity are consistent level by level:
    each is the property one level below it followed by one more hop, so
    [x.plant] is the plant of [x.zone], [x.zone] the zone of [x.loop],
    and a level that is [None] leaves every level above it [None]. *)
Theorem walk_levels_agree (db : DB) :
  (∀ self : Line,
      Line_plant db self = and_then (Line_zone db self) (Zone_plant db))
  ∧ (∀ self : Cell,
      Cell_zone db self = and_then (Cell_loop db self) (Loop_zone db))
  ∧ (∀ self : Cell,
      Cell_plant db self = and_then (Cell_zone db self) (Zone_plant db))
  ∧ (∀ self : TeamLeader,
      TeamLeader_zone db self
      = and_then (TeamLeader_loop db self) (Loop_zone db))
  ∧ (∀ self : TeamLeader,
      TeamLeader_plant db self
      = and_then (TeamLeader_zone db self) (Zone_plant db))
  ∧ (∀ self : Member,
      Member_loop db self = and_then (Member_line db self) (Line_loop db))
  ∧ (∀ self : Member,
      Member_zone db self = and_then (Member_loop db self) (Loop_zone db))
  ∧ (∀ self : Member,
      Member_plant db self = and_then (Member_zone db self) (Zone_plant db))
  ∧ (∀ self : Production,
      Production_zone db self
      = and_then (Production_loop db self) (Loop_zone db))
  ∧ (∀ self : Production,
      Production_plant db self
      = and_then (Production_zone db self) (Zone_plant db))
  ∧ (∀ self : Loss,
      Loss_planner_user db self
      = and_then (Loss_planner db self) (Planner_user db))
  ∧ (∀ self : Loss,
      Loss_team_leader_user db self
      = and_then (Loss_team_leader db self) (TeamLeader_user db))
  ∧ (∀ self : Loss,
      Loss_loop db self = and_then (Loss_line db self) (Line_loop db))
  ∧ (∀ self : Loss,
      Loss_zone db self = and_then (Loss_loop db self) (Loop_zone db))
  ∧ (∀ self : Loss,
      Loss_plant db self = and_then (Loss_zone db self) (Zone_plant db))
  ∧ (∀ self : Attendance,
      Attendance_working_loop db self
      = and_then (Attendance_working_line db self) (Line_loop db))
  ∧ (∀ self : Attendance,
      Attendance_working_zone db self
      = and_then (Attendance_working_loop db self) (Loop_zone db))
  ∧ (∀ self : Attendance,
      Attendance_working_plant db self
      = and_then (Attendance_working_zone db self) (Zone_plant db))
  ∧ (∀ self : Attendance,
      Attendance_member_line db self
      = and_then (Attendance_member_cell db self) (Cell_line db))
  ∧ (∀ self : Attendance,
      Attendance_member_loop db self
      = and_then (Attendance_member_line db self) (Line_loop db))
  ∧ (∀ self : Attendance,
      Attendance_member_zone db self
      = and_then (Attendance_member_loop db self) (Loop_zone db))
  ∧ (∀ self : Attendance,
      Attendance_member_plant db self
      = and_then (Attendance_member_zone db self) (Zone_plant db)).
Proof. repeat apply conj; levels. Qed.

(** X8.  Ancestry is decided by the anchor alone: a Cell, a TeamLeader
    and a Production on the same line have the same loop, zone and
    plant, and a Member and an Attendance with the same cell (home cell
    and working cell) have the same line, loop, zone and plant. *)
Theorem same_anchor_same_ancestors (db : DB) :
  (∀ (c : Cell) (t : TeamLeader),
     Cell_line_id c = TeamLeader_line_id t →
     Cell_loop db c = TeamLeader_loop db t
     ∧ Cell_zone db c = TeamLeader_zone db t
     ∧ Cell_plant db c = TeamLeader_plant db t)
  ∧ (∀ (c : Cell) (pr : Production),
     Cell_line_id c = Production_line_id pr →
     Cell_loop db c = Production_loop db pr
     ∧ Cell_zone db c = Production_zone db pr
     ∧ Cell_plant db c = Production_plant db pr)
  ∧ (∀ (t : TeamLeader) (pr : Production),
     TeamLeader_line_id t = Production_line_id pr →
     TeamLeader_loop db t = Production_loop db pr
     ∧ TeamLeader_zone db t = Production_zone db pr
     ∧ TeamLeader_plant db t = Production_plant db pr)
  ∧ (∀ (m : Member) (a : Attendance),
     Member_cell_id m = Attendance_working_cell_id a →
     Member_line db m = Attendance_working_line db a
     ∧ Member_loop db m = Attendance_working_loop db a
     ∧ Member_zone db m = Attendance_working_zone db a
     ∧ Member_plant db m = Attendance_working_plant db a).
Proof.
  repeat apply conj.
  - intros c t H.
    rewrite Cell_loop_hops, Cell_zone_hops, Cell_plant_hops,
      TeamLeader_loop_hops, TeamLeader_zone_hops, TeamLeader_plant_hops.
    unfold Cell_line, TeamLeader_line. rewrite H. repeat split.
  - intros c pr H.
    rewrite Cell_loop_hops, Cell_zone_hops, Cell_plant_hops,
      Production_loop_hops, Production_zone_hops, Production_plant_hops.
    unfold Cell_line, Production_line. rewrite H. repeat split.
  - intros t pr H.
    rewrite TeamLeader_loop_hops, TeamLeader_zone_hops, TeamLeader_plant_hops,
      Production_loop_hops, Production_zone_hops, Production_plant_hops.
    unfold TeamLeader_line, Production_line. rewrite H. repeat split.
  - intros m a H.
    rewrite Member_line_hops, Member_loop_hops, Member_zone_hops,
      Member_plant_hops, Attendance_working_line_hops,
      Attendance_working_loop_hops, Attendance_working_zone_hops,
      Attendance_working_plant_hops.
    unfold Member_cell, Attendance_working_cell. rewrite H. repeat split.
Qed.

(** Production PR1 of the plant floor is on the line of cell C1, and
    member M1 is at home in cell C1: all resolve to plant P1. *)
Lemma same_anchor_same_ancestors_witness :
  Production_plant Floor.db Floor.PR1 = Returns (Some Floor.P1)
  ∧ Cell_plant Floor.db Floor.C1 = Production_plant Floor.db Floor.PR1.
Proof.
  destruct (same_anchor_same_ancestors Floor.db) as (_ & Hcp & _ & _).
  destruct (Hcp Floor.C1 Floor.PR1 eq_refl) as (_ & _ & Hplant).
  split; [reflexivity | exact Hplant].
Defined.

(** ** Reparenting, seen from elsewhere *)

(** X9.  Assigning [plant_id] on one Zone reaches no one else: the line
    and loop of every Cell are what they were, and so are the zone and
    plant of every Cell whose loop is not in that Zone (or has no loop
    at all). *)
Theorem reparent_Zone_leaves_others
    (db : DB) (now k : Z) (new : option Z) (c : Cell) :
  Cell_line (reparent_Zone now k new db) c = Cell_line db c
  ∧ Cell_loop (reparent_Zone now k new db) c = Cell_loop db c
  ∧ (∀ olo : option Loop,
       Cell_loop db c = Returns olo →
       (∀ lo, olo = Some lo → Loop_zone_id lo ≠ Some k) →
       Cell_zone (reparent_Zone now k new db) c = Cell_zone db c
       ∧ Cell_plant (reparent_Zone now k new db) c = Cell_plant db c).
Proof.
  split; [reflexivity|]. split; [reflexivity|].
  intros olo Hloop Hother.
  rewrite Cell_loop_hops in Hloop. injection Hloop as Hloop.
  rewrite !Cell_zone_hops, !Cell_plant_hops.
  change (Cell_line (reparent_Zone now k new db) c) with (Cell_line db c).
  destruct (Cell_line db c) as [l|]; cbn [mbind option_bind];
    [|split; reflexivity].
  change (Line_loop (reparent_Zone now k new db) l) with (Line_loop db l).
  cbn [mbind option_bind] in Hloop.
  destruct (Line_loop db l) as [lo|]; cbn [mbind option_bind];
    [|split; reflexivity].
  unfold reparent_Zone. rewrite Loop_zone_update_zone.
  destruct (decide (Loop_zone_id lo = Some k)) as [Hk|_].
  { destruct (Hother lo (eq_sym Hloop) Hk). }
  destruct (Loop_zone db lo) as [z|]; cbn; split; reflexivity.
Qed.

(** Zone Z1 of the plant floor is moved; cell C2, under zone Z2, stays
    in plant P2. *)
Lemma reparent_Zone_leaves_others_witness :
  Cell_plant (reparent_Zone 9 1 (Some 2) Floor.db) Floor.C2
  = Returns (Some Floor.P2).
Proof.
  destruct (reparent_Zone_leaves_others Floor.db 9 1 (Some 2) Floor.C2)
    as (_ & _ & H).
  destruct (H (Some Floor.L2) eq_refl) as (_ & Hplant).
  { intros lo [= <-]. discriminate. }
  exact Hplant.
Defined.



(** ** Timestamps *)

Lemma last_cons_default (ws : list (Z * write)) :
  ∀ now t : Z, List.last (now :: ws.*1) t = List.last ws.*1 now.
Proof.
  induction ws as [|[now' w'] ws IH]; intros now t; [reflexivity|].
  cbn [fmap list_fmap fst].
  change (List.last (now :: now' :: ws.*1) t)
    with (List.last (now' :: ws.*1) t).
  rewrite (IH now' t), (IH now' now). reflexivity.
Qed.

Lemma clock_from_last (ws : list (Z * write)) :
  ∀ t : Z, clock_from t ws → t ≤ List.last ws.*1 t.
Proof.
  induction ws as [|[now w] ws IH]; intros t Hclock; [cbn; lia|].
  destruct Hclock as [Hle Hrest]. specialize (IH now Hrest).
  cbn [fmap list_fmap fst]. rewrite last_cons_default. lia.
Qed.

(** X11.  Under UPDATEs that assign neither timestamp, [created_at]
    never changes and [updated_at] is the time of the last UPDATE; with
    a clock that does not go back, [created_at] stays at or before
    [updated_at]. *)
Theorem timestamps_under_updates (ws : list (Z * write)) (m : TimestampMixin) :
  Forall (λ nw, keeps_timestamps nw.2 = true) ws →
  created_at (run ws m) = created_at m
  ∧ updated_at (run ws m) = List.last ws.*1 (updated_at m)
  ∧ (created_at m ≤ updated_at m → clock_from (updated_at m) ws →
     created_at (run ws m) ≤ updated_at (run ws m)).
Proof.
  intros Hws.
  assert (H12 : created_at (run ws m) = created_at m
                ∧ updated_at (run ws m) = List.last ws.*1 (updated_at m)).
  { revert m. induction Hws as [|[now w] ws Hw _ IH]; intros m;
      [split; reflexivity|].
    cbn [run]. destruct (IH (flush now w m)) as [IHc IHu].
    assert (Hstep : created_at (flush now w m) = created_at m
                    ∧ updated_at (flush now w m) = now).
    { destruct w; try discriminate Hw; split; reflexivity. }
    destruct Hstep as [Hc Hu]. split; [congruence|].
    rewrite IHu, Hu. cbn [fmap list_fmap fst]. symmetry.
    apply last_cons_default. }
  destruct H12 as [Hc Hu]. split; [exact Hc|]. split; [exact Hu|].
  intros Hle Hclock. rewrite Hc, Hu.
  pose proof (clock_from_last ws _ Hclock). lia.
Qed.

(** Created at 0 with the defaults, then updated at 3, marked deleted at
    5 and updated at 8. *)
Lemma timestamps_under_updates_witness :
  created_at (run [(3, Assign_own); (5, Assign_is_deleted true);
                   (8, Assign_own)] (TimestampMixin_init 0 no_kwargs)) = 0
  ∧ updated_at (run [(3, Assign_own); (5, Assign_is_deleted true);
                     (8, Assign_own)] (TimestampMixin_init 0 no_kwargs)) = 8.
Proof.
  destruct (timestamps_under_updates
              [(3, Assign_own); (5, Assign_is_deleted true); (8, Assign_own)]
              (TimestampMixin_init 0 no_kwargs)) as (Hc & Hu & _).
  { repeat constructor. }
  split; [exact Hc | exact Hu].
Defined.

(** ** Primary keys under writes *)




(** ** Down by the collections, up by the properties *)

Lemma one_to_many_stored {K V P : Type} `{Countable K} `{EqDecision P}
    (fk : V → option P) (pk : V → K) (parent : P) (tbl : gmap K V)
    (k : K) (c : V) :
  keyed pk tbl → one_to_many fk parent tbl !! k = Some c →
  tbl !! pk c = Some c.
Proof.
  intros Hkeyed Hin. apply one_to_many_Some in Hin as [Hc _].
  rewrite (Hkeyed _ _ Hc). exact Hc.
Qed.

Lemma one_to_many_parent {K V KP VP : Type} `{Countable K} `{Countable KP}
    (fk : V → option KP) (pk : VP → KP) (ptbl : gmap KP VP) (tbl : gmap K V)
    (p : VP) (k : K) (c : V) :
  keyed pk ptbl → ptbl !! pk p = Some p →
  one_to_many fk (pk p) tbl !! k = Some c →
  (fk c ≫= λ j, ptbl !! j) = Some p.
Proof.
  intros Hkeyed Hp Hin.
  exact (proj2 (proj1 (one_to_many_back fk pk ptbl tbl p k c Hkeyed Hp) Hin)).
Qed.

(** X13.  Going down the hierarchy by the collections and back up by the
    properties ends where it started.  In a well-keyed store, take a
    stored Plant, one of its [zones], one of that Zone's [loops], one of
    that Loop's [lines] and one of that Line's [cells]: the Cell's
    [line], [loop], [zone] and [plant] are exactly those; and so are the
    plant of every Member and working Attendance of the Cell, of every
    Production of the Line and of every Loss of such a Production. *)
Theorem down_the_hierarchy_and_back
    (db : DB) (p : Plant) (z : Zone) (lo : Loop) (l : Line) (c : Cell)
    (kz klo kl kc : Z) :
  well_keyed db → tbl_plant db !! Plant_id p = Some p →
  Plant_zones db p !! kz = Some z → Zone_loops db z !! klo = Some lo →
  Loop_lines db lo !! kl = Some l → Line_cells db l !! kc = Some c →
  Cell_line db c = Some l
  ∧ Cell_loop db c = Returns (Some lo)
  ∧ Cell_zone db c = Returns (Some z)
  ∧ Cell_plant db c = Returns (Some p)
  ∧ (∀ km (m : Member), Cell_members db c !! km = Some m →
       Member_plant db m = Returns (Some p))
  ∧ (∀ ka (a : Attendance), Cell_working_members db c !! ka = Some a →
       Attendance_working_plant db a = Returns (Some p))
  ∧ (∀ kp (pr : Production), Line_productions db l !! kp = Some pr →
       Production_plant db pr = Returns (Some p)
       ∧ ∀ kl' (ls : Loss), Production_losses db pr !! kl' = Some ls →
           Loss_plant db ls = Returns (Some p)).
Proof.
  intros (KP & KZ & KLo & KL & KC & _ & _ & _ & _ & _ & _ & _ & KPr & _)
    Hp Hz Hlo Hl Hc.
  unfold Plant_zones, Zone_loops, Loop_lines, Line_cells in *.
  pose proof (one_to_many_parent _ _ _ _ _ _ _ KP Hp Hz) as Zp.
  pose proof (one_to_many_stored _ _ _ _ _ _ KZ Hz) as Zs.
  pose proof (one_to_many_parent _ _ _ _ _ _ _ KZ Zs Hlo) as Lz.
  pose proof (one_to_many_stored _ _ _ _ _ _ KLo Hlo) as Ls.
  pose proof (one_to_many_parent _ _ _ _ _ _ _ KLo Ls Hl) as Ll.
  pose proof (one_to_many_stored _ _ _ _ _ _ KL Hl) as Lns.
  pose proof (one_to_many_parent _ _ _ _ _ _ _ KL Lns Hc) as Cl.
  pose proof (one_to_many_stored _ _ _ _ _ _ KC Hc) as Cs.
  change (Zone_plant db z = Some p) in Zp.
  change (Loop_zone db lo = Some z) in Lz.
  change (Line_loop db l = Some lo) in Ll.
  change (Cell_line db c = Some l) in Cl.
  assert (Hup : (((Some l ≫= Line_loop db) ≫= Loop_zone db) ≫= Zone_plant db)
                = Some p).
  { cbn [mbind option_bind]. rewrite Ll; cbn [mbind option_bind].
    rewrite Lz; cbn [mbind option_bind]. exact Zp. }
  split; [exact Cl|].
  split; [rewrite Cell_loop_hops, Cl; cbn [mbind option_bind]; congruence|].
  split.
  { rewrite Cell_zone_hops, Cl; cbn [mbind option_bind].
    rewrite Ll; cbn [mbind option_bind]. congruence. }
  split; [rewrite Cell_plant_hops, Cl; congruence|].
  split; [|split].
  - intros km m Hm. unfold Cell_members in Hm.
    pose proof (one_to_many_parent _ _ _ _ _ _ _ KC Cs Hm) as Mc.
    change (Member_cell db m = Some c) in Mc.
    rewrite Member_plant_hops, Mc; cbn [mbind option_bind].
    rewrite Cl. congruence.
  - intros ka a Ha. unfold Cell_working_members in Ha.
    pose proof (one_to_many_parent _ _ _ _ _ _ _ KC Cs Ha) as Ac.
    change (Attendance_working_cell db a = Some c) in Ac.
    rewrite Attendance_working_plant_hops, Ac; cbn [mbind option_bind].
    rewrite Cl. congruence.
  - intros kp pr Hpr. unfold Line_productions in Hpr.
    pose proof (one_to_many_parent _ _ _ _ _ _ _ KL Lns Hpr) as Pl.
    pose proof (one_to_many_stored _ _ _ _ _ _ KPr Hpr) as Ps.
    change (Production_line db pr = Some l) in Pl.
    split; [rewrite Production_plant_hops, Pl; congruence|].
    intros kl' ls Hls. unfold Production_losses in Hls.
    pose proof (one_to_many_parent _ _ _ _ _ _ _ KPr Ps Hls) as Lp.
    change (Loss_production db ls = Some pr) in Lp.
    rewrite Loss_plant_hops, Lp; cbn [mbind option_bind].
    rewrite Pl. congruence.
Qed.

(** Down from plant P1 of the plant floor to cell C1, its member M1,
    production PR1 and loss LS1, and back. *)
Lemma down_the_hierarchy_and_back_witness :
  Cell_plant Floor.db Floor.C1 = Returns (Some Floor.P1)
  ∧ Member_plant Floor.db Floor.M1 = Returns (Some Floor.P1)
  ∧ Loss_plant Floor.db Floor.LS1 = Returns (Some Floor.P1).
Proof.
  destruct (down_the_hierarchy_and_back Floor.db Floor.P1 Floor.Z1 Floor.L1
              Floor.Ln1 Floor.C1 1 1 1 1 Floor_well_keyed
              eq_refl eq_refl eq_refl eq_refl eq_refl)
    as (_ & _ & _ & Hc & Hm & _ & Hpr).
  split; [exact Hc|]. split.
  - exact (Hm "m1" Floor.M1 eq_refl).
  - destruct (Hpr 1 Floor.PR1 eq_refl) as [_ Hls].
    exact (Hls 1 Floor.LS1 eq_refl).
Defined.
